(** * llmagent.language_models.base

    A shallow embedding of [src/llmagent/language_models/base.py]: the
    abstract [LanguageModel] interface, the concurrent verbatim extractor,
    the summary-answer composer with its citation parsing, the provider
    factory and the [StreamingIfAllowed] scope.

    Conventions.
    - A Python [str] is a list of Unicode code points ([str] below), so that
      [str.strip] strips exactly the code points CPython treats as white
      space; [py] turns a literal of this file into such a list.
    - A [dict] is a [gmap]; a Python list is a [list].
    - Code that may raise returns a [result]; code that reads or changes the
      model instance, the global settings or talks to the remote API is a
      state transformer on [world] (the monad [Eff]).
    - [show_if_debug] only prints, and the [aiohttp.ClientSession] scopes
      hold no value the code reads: both are left out. *)

From Stdlib Require Import ZArith Lia.
From stdpp Require Import gmap list fin_maps strings pretty.

Local Open Scope N_scope.
Local Open Scope list_scope.

(** ** Python strings *)

Module Str.

(** A Python [str]: the sequence of its code points. *)
Definition str : Type := list N.

(** A literal of this file, read as the [str] with the same characters. *)
Definition py (s : string) : str :=
  List.map Ascii.N_of_ascii (String.list_ascii_of_string s).

(** [_PyUnicode_IsWhitespace]: the code points that [str.strip()] (called
    with no argument) removes. *)
Definition isspace (c : N) : bool :=
  ((9 <=? c) && (c <=? 13))
  || ((28 <=? c) && (c <=? 32))
  || (c =? 133) || (c =? 160) || (c =? 5760)
  || ((8192 <=? c) && (c <=? 8202))
  || (c =? 8232) || (c =? 8233) || (c =? 8239) || (c =? 8287)
  || (c =? 12288).

(** [s.lstrip()] *)
Fixpoint lstrip (s : str) : str :=
  match s with
  | c :: s' => if isspace c then lstrip s' else s
  | [] => []
  end.

(** [s.rstrip()] *)
Definition rstrip (s : str) : str := rev (lstrip (rev s)).

(** [s.strip()] *)
Definition strip (s : str) : str := rstrip (lstrip s).

(** [s.startswith(p)] *)
Fixpoint startswith (p s : str) : bool :=
  match p, s with
  | [], _ => true
  | a :: p', b :: s' => (a =? b) && startswith p' s'
  | _ :: _, [] => false
  end.

(** The leftmost occurrence of [sep] in [s]: the text before it and the
    text after it. *)
Fixpoint find_first (sep s : str) : option (str * str) :=
  if startswith sep s then Some ([], drop (length sep) s)
  else match s with
       | [] => None
       | c :: s' =>
           match find_first sep s' with
           | Some (before, after) => Some (c :: before, after)
           | None => None
           end
       end.

(** [s.split(sep, maxsplit=1)] for a non-empty [sep] (Python raises
    [ValueError] on an empty one; the only separator used is a non-empty
    constant). *)
Definition split1 (sep s : str) : list str :=
  match find_first sep s with
  | Some (before, after) => [before; after]
  | None => [s]
  end.

(** [sep.join(parts)] *)
Fixpoint join (sep : str) (parts : list str) : str :=
  match parts with
  | [] => []
  | [p] => p
  | p :: rest => p ++ sep ++ join sep rest
  end.

(** [sep in s] *)
Definition contains (sep s : str) : Prop :=
  exists before after, s = before ++ sep ++ after.

(** [s = before ++ sep ++ after] cuts [s] at its first occurrence of [sep]:
    no occurrence starts further left. *)
Definition first_occurrence (sep s before after : str) : Prop :=
  s = before ++ sep ++ after /\
  forall before' after', s = before' ++ sep ++ after' ->
    (length before <= length before')%nat.

(** No white space at either end. *)
Definition stripped (s : str) : Prop :=
  (forall c s', s = c :: s' -> isspace c = false) /\
  (forall c s', s = s' ++ [c] -> isspace c = false).

End Str.
Export Str.

Local Open Scope Z_scope.

(** ** Errors and effects *)

(** The exceptions this code can see: the [KeyError] of a failed lookup
    (in a [dict] or in the keyword arguments of [str.format]), the
    [AttributeError] of reading an attribute that was never set, and
    whatever the provider raises from a remote call. *)
Inductive exn : Type :=
  | KeyError (key : str)
  | AttributeError (attribute : str)
  | ProviderError (msg : str).

Inductive result (A : Type) : Type :=
  | Ok (a : A)
  | Err (e : exn).
Arguments Ok {A} a.
Arguments Err {A} e.

Definition is_Ok {A} (r : result A) : Prop := exists a, r = Ok a.

(** ** Data model *)

(** Modelled from the spec: the values a metadata mapping holds
    ([llmagent.mytypes] is not part of the sources at hand; the spec gives
    the metadata as a mapping of string to value). The code of this file
    stores a [str] and a [bool] itself. *)
Inductive value : Type :=
  | VStr (s : str)
  | VBool (b : bool)
  | VInt (z : Z).

(** [str(v)], as an f-string renders a value. *)
Definition value_str (v : value) : str :=
  match v with
  | VStr s => s
  | VBool true => py "True"
  | VBool false => py "False"
  | VInt z => py (pretty z)
  end.

(** Modelled from the spec: [llmagent.mytypes.Document], a text and a
    metadata mapping of string to value. *)
Record Document : Type := mkDocument {
  content : str;
  metadata : gmap str value
}.

Record LLMResponse : Type := mkLLMResponse {
  message : str;
  usage : Z;
  cached : bool
}.

Inductive Role : Type := USER | SYSTEM | ASSISTANT.

(** [LLMMessage]; its field [content] is [msg_content] here, the name
    [content] being the field of [Document]. *)
Record LLMMessage : Type := mkLLMMessage {
  role : Role;
  name : str;
  msg_content : str
}.

(** [LLMConfig]; the cache configuration is not read by this file's code
    and is left out. *)
Record LLMConfig : Type := mkLLMConfig {
  type : str;
  max_tokens : Z;
  use_chat_for_completion : bool;
  stream : bool
}.

(** The defaults of the fields of [LLMConfig]. *)
Definition LLMConfig_defaults : LLMConfig :=
  mkLLMConfig (py "openai") 1024 true false.

(** ** The abstract model interface *)

(** The abstract methods of [LanguageModel], over the state [M] of a model
    instance. [agenerate] is the asynchronous call that
    [get_verbatim_extract_async] makes on [self]; a remote call is taken as
    one step on the instance: it ends with a response or raises. *)
Class LanguageModel (M : Type) : Type := {
  set_stream : bool -> M -> bool * M;
  get_stream : M -> bool;
  generate : str -> Z -> M -> result LLMResponse * M;
  chat : str + list LLMMessage -> Z -> M -> result LLMResponse * M;
  agenerate : str -> Z -> M -> result LLMResponse * M
}.

(** What the docstrings of [set_stream] and [get_stream] ask of an
    implementation: [set_stream] enables or disables streaming and returns
    the previous value; [get_stream] reads the streaming status. *)
Class StreamContract (M : Type) `{LanguageModel M} : Prop := {
  set_stream_previous : forall b m, fst (set_stream b m) = get_stream m;
  set_stream_sets : forall b m, get_stream (snd (set_stream b m)) = b
}.

(** [__call__] *)
Definition call {M} `{LanguageModel M} (prompt : str) (max_tokens : Z)
  : M -> result LLMResponse * M :=
  generate prompt max_tokens.

(** One remote call as the instance saw it. *)
Record api_call : Type := mkCall {
  call_async : bool;
  call_prompt : str;
  call_max_tokens : Z;
  call_result : result LLMResponse
}.

(** What the operations read and change: the model instance [self], the
    process-wide [settings.stream], and the remote calls made so far, oldest
    first. *)
Record world (M : Type) : Type := mkWorld {
  llm : M;
  settings_stream : bool;
  calls : list api_call
}.
Arguments mkWorld {M} llm settings_stream calls.
Arguments llm {M} w.
Arguments settings_stream {M} w.
Arguments calls {M} w.

(** A computation that returns or raises, and may change the world either
    way. *)
Definition Eff (M A : Type) : Type := world M -> result A * world M.

Definition ret {M A} (a : A) : Eff M A := fun w => (Ok a, w).

Definition raise {M A} (e : exn) : Eff M A := fun w => (Err e, w).

Definition bind {M A B} (c : Eff M A) (k : A -> Eff M B) : Eff M B :=
  fun w =>
    match c w with
    | (Ok a, w') => k a w'
    | (Err e, w') => (Err e, w')
    end.

(** A pure step that may raise. *)
Definition lift {M A} (r : result A) : Eff M A := fun w => (r, w).

Notation "'let*' x ':=' c 'in' k" := (bind c (fun x => k))
  (at level 10, x name, c at level 100, k at level 200).

(** [self.generate(prompt=..., max_tokens=...)] *)
Definition call_generate {M} `{LanguageModel M} (prompt : str) (n : Z)
  : Eff M LLMResponse :=
  fun w =>
    let '(r, m) := generate prompt n (llm w) in
    (r, mkWorld m (settings_stream w) (calls w ++ [mkCall false prompt n r])).

(** [await self.agenerate(prompt=..., max_tokens=...)] *)
Definition call_agenerate {M} `{LanguageModel M} (prompt : str) (n : Z)
  : Eff M LLMResponse :=
  fun w =>
    let '(r, m) := agenerate prompt n (llm w) in
    (r, mkWorld m (settings_stream w) (calls w ++ [mkCall true prompt n r])).

(** ** Prompt templates *)

(** Modelled from the spec: the prompt templates of
    [llmagent.prompts.templates] are fixed texts with named substitution
    placeholders; a template is the sequence of its literal pieces and its
    placeholders. *)
Inductive segment : Type :=
  | Text (s : str)
  | Field (name : str).

Definition template : Type := list segment.

(** [str.format] with keyword arguments [kwargs]: a placeholder with no
    keyword argument of its name raises [KeyError]. *)
Fixpoint format (t : template) (kwargs : gmap str str) : result str :=
  match t with
  | [] => Ok []
  | Text s :: t' =>
      match format t' kwargs with
      | Ok rest => Ok (s ++ rest)
      | Err e => Err e
      end
  | Field name :: t' =>
      match kwargs !! name with
      | None => Err (KeyError name)
      | Some v =>
          match format t' kwargs with
          | Ok rest => Ok (v ++ rest)
          | Err e => Err e
          end
      end
  end.

(** ** Joining concurrent tasks *)

(** The event loop starts every task of an [asyncio.gather], in the order
    they were given, before the awaiting coroutine sees any outcome. Each
    task is taken as one step on the world, in that order; the order in
    which the tasks finish is kept apart (see [first_raised]). *)
Fixpoint run_tasks {M A} (tasks : list (Eff M A)) (w : world M)
  : list (result A) * world M :=
  match tasks with
  | [] => ([], w)
  | t :: rest =>
      let '(r, w1) := t w in
      let '(rs, w2) := run_tasks rest w1 in
      (r :: rs, w2)
  end.

(** The exception of the task that fails first, where [completion] lists
    the tasks (by position) in the order they finish. *)
Fixpoint first_raised {A} (completion : list nat) (rs : list (result A))
  : option exn :=
  match completion with
  | [] => None
  | i :: later =>
      match rs !! i with
      | Some (Err e) => Some e
      | _ => first_raised later rs
      end
  end.

(** The values of the tasks in the order the tasks were given; a task that
    raised makes the whole raise. *)
Fixpoint collect {A} (rs : list (result A)) : result (list A) :=
  match rs with
  | [] => Ok []
  | Ok a :: rest =>
      match collect rest with
      | Ok l => Ok (a :: l)
      | Err e => Err e
      end
  | Err e :: _ => Err e
  end.

(** [await asyncio.gather] over [tasks], without [return_exceptions]: the
    first exception raised by a task is raised to the caller; when no task
    raises the values come back in the order of [tasks], whatever the order
    of completion. *)
Definition gather {M A} (completion : list nat) (tasks : list (Eff M A))
  : Eff M (list A) :=
  fun w =>
    let '(rs, w') := run_tasks tasks w in
    match first_raised completion rs with
    | Some e => (Err e, w')
    | None => (collect rs, w')
    end.

(** ** The operations of [LanguageModel] *)

Definition newline : str := [10%N].

(** The sixteen blanks that indent the lines of the f-string in
    [stringify_passages]. *)
Definition indent : str := py "                ".

Section Operations.
Context {M : Type} `{LanguageModel M}.
Variables EXTRACTION_PROMPT_GPT4 SUMMARY_ANSWER_PROMPT_GPT4 : template.

Definition get_verbatim_extract_async (question : str) (passage : Document)
  : Eff M str :=
  let* final_prompt :=
    lift (format EXTRACTION_PROMPT_GPT4
            (<[py "question" := question]>
               (<[py "content" := content passage]> ∅))) in
  let* final_extract := call_agenerate final_prompt 1024 in
  ret (strip (message final_extract)).

Definition _get_verbatim_extracts (completion : list nat)
    (question : str) (passages : list Document) : Eff M (list Document) :=
  let* verbatim_extracts :=
    gather completion
      (get_verbatim_extract_async question <$> passages) in
  let metadatas := metadata <$> passages in
  ret ((fun em => mkDocument (fst em) (snd em))
         <$> zip verbatim_extracts metadatas).

(** [asyncio.run] drives the coroutine to its end from synchronous
    code; the caller is taken to have no event loop running in its thread
    (with one running, [asyncio.run] raises before the coroutine starts,
    which is outside this model). *)
Definition get_verbatim_extracts (completion : list nat)
    (question : str) (passages : list Document) : Eff M (list Document) :=
  _get_verbatim_extracts completion question passages.

(** One element of the list comprehension of [stringify_passages]. *)
Definition stringify_passage (p : Document) : result str :=
  match metadata p !! py "source" with
  | None => Err (KeyError (py "source"))
  | Some source =>
      Ok (newline ++ indent ++ py "Extract: " ++ content p
          ++ newline ++ indent ++ py "Source: " ++ value_str source
          ++ newline ++ indent)
  end.

Fixpoint stringify_each (passages : list Document) : result (list str) :=
  match passages with
  | [] => Ok []
  | p :: rest =>
      match stringify_passage p with
      | Err e => Err e
      | Ok s =>
          match stringify_each rest with
          | Err e => Err e
          | Ok l => Ok (s :: l)
          end
      end
  end.

Definition stringify_passages (passages : list Document) : result str :=
  match stringify_each passages with
  | Err e => Err e
  | Ok l => Ok (join newline l)
  end.

Definition get_summary_answer (question : str) (passages : list Document)
  : Eff M Document :=
  let* passages := lift (stringify_passages passages) in
  let* final_prompt :=
    lift (format SUMMARY_ANSWER_PROMPT_GPT4
            (<[py "question" := py "Question:" ++ question]>
               (<[py "extracts" := passages]> ∅))) in
  let* llm_response := call_generate final_prompt 1024 in
  let final_answer := strip (message llm_response) in
  let parts := split1 (py "SOURCE:") final_answer in
  let '(content, sources) :=
    match parts with
    | before :: after :: _ => (* len(parts) > 1 *)
        (strip before, strip after)
    | _ => (final_answer, [])
    end in
  ret (mkDocument content
         (<[py "source" := VStr (py "SOURCE: " ++ sources)]>
            (<[py "cached" := VBool (cached llm_response)]> ∅))).

End Operations.

(** ** The provider factory *)

Section Create.
(** The classes a provider tag can name, the one class this file imports,
    and what calling a class on a configuration gives. *)
Variables (cls : Type) (OpenAIGPT : cls).
Variables (instance : Type) (construct : cls -> LLMConfig -> instance).

(** [dict(openai=OpenAIGPT)] *)
Definition providers : gmap str cls := <[py "openai" := OpenAIGPT]> ∅.

(** [dict(openai=OpenAIGPT).get(config.type, OpenAIGPT)] *)
Definition create_cls (config : LLMConfig) : cls :=
  default OpenAIGPT (providers !! type config).

Definition create (config : LLMConfig) : instance :=
  construct (create_cls config) config.
End Create.

(** ** The streaming scope *)

Module StreamingIfAllowed.

(** The manager object: [self.stream], and [self.old_stream] once
    [__enter__] has set it. [self.llm] is the instance of the world. *)
Record t : Type := mk {
  stream : bool;
  old_stream : option bool
}.

Definition __init__ (stream : bool) : t := mk stream None.

Section Scope.
Context {M : Type} `{LanguageModel M}.

Definition __enter__ (self : t) (w : world M) : t * world M :=
  let '(previous, m) :=
    set_stream (settings_stream w && stream self) (llm w) in
  (mk (stream self) (Some previous),
   mkWorld m (settings_stream w) (calls w)).

Definition __exit__ (self : t) : Eff M unit :=
  fun w =>
    match old_stream self with
    | None => (Err (AttributeError (py "old_stream")), w)
    | Some previous =>
        let '(_, m) := set_stream previous (llm w) in
        (Ok tt, mkWorld m (settings_stream w) (calls w))
    end.

(** [with StreamingIfAllowed(llm, stream): block]. The manager is made
    by the statement and bound to no name, so the block cannot reach
    it. [__exit__] runs whether the block returned or raised and
    returns [None]: an exception of the block is raised again after
    it. *)
Definition scope {A} (stream : bool) (block : Eff M A) : Eff M A :=
  fun w =>
    let '(self, w1) := __enter__ (__init__ stream) w in
    let '(r, w2) := block w1 in
    match __exit__ self w2 with
    | (Ok _, w3) => (r, w3)
    | (Err e, w3) => (Err e, w3)
    end.
End Scope.

End StreamingIfAllowed.

(** ** A scripted model *)

(** A model instance whose responses are fixed in advance, as a test double
    of the remote API: every call takes the next scripted outcome. It runs
    the operations above on concrete inputs. *)
Module Scripted.

Record t : Type := mk {
  streaming : bool;
  pending : list (result LLMResponse)
}.

Definition next (m : t) : result LLMResponse * t :=
  match pending m with
  | r :: rest => (r, mk (streaming m) rest)
  | [] => (Err (ProviderError (py "nothing scripted")), m)
  end.

#[global] Instance model : LanguageModel t := {|
  set_stream b m := (streaming m, mk b (pending m));
  get_stream := streaming;
  generate _ _ := next;
  chat _ _ := next;
  agenerate _ _ := next
|}.

Definition start (streaming : bool) (script : list (result LLMResponse))
    (allowed : bool) : world t :=
  mkWorld (mk streaming script) allowed [].

Definition says (text : string) : result LLMResponse :=
  Ok (mkLLMResponse (py text) 0 false).

Definition fails (text : string) : result LLMResponse :=
  Err (ProviderError (py text)).

End Scripted.

(** Sample templates and passages for the examples below. *)
Definition sample_extraction_prompt : template :=
  [Text (py "Question: "); Field (py "question");
   Text (py " Passage: "); Field (py "content")].

Definition sample_summary_prompt : template :=
  [Field (py "question"); Text newline; Field (py "extracts")].

Definition cited (text source : string) : Document :=
  mkDocument (py text) (<[py "source" := VStr (py source)]> ∅).

Definition uncited (text : string) : Document :=
  mkDocument (py text) (<[py "page" := VInt 7]> ∅).

Definition sample_passages : list Document :=
  [cited "a" "s1"; uncited "b"; cited "c" "s3"].

(** The rendering of the passage [cited "a" "s1"] and the summary prompt
    made of it for the question [q]. *)
Definition sample_extracts : str :=
  newline ++ indent ++ py "Extract: a"
  ++ newline ++ indent ++ py "Source: s1" ++ newline ++ indent.

Definition sample_prompt : str :=
  py "Question:q" ++ newline ++ sample_extracts.

(** ** The standalone-question rewriter *)

(** The eight blanks that indent the lines of the f-string in
    [followup_to_standalone]. *)
Definition margin : str := py "        ".

(** The f-string of [followup_to_standalone], before [.strip()]. *)
Definition followup_text (history question : str) : str :=
  newline ++ margin
  ++ py "Given the conversationn below, and a follow-up question, rephrase the follow-up "
  ++ newline ++ margin ++ py "question as a standalone question."
  ++ newline ++ margin
  ++ newline ++ margin ++ py "Chat history: " ++ history
  ++ newline ++ margin ++ py "Follow-up question: " ++ question ++ py " "
  ++ newline ++ margin.

Section Followup.
Context {M : Type} `{LanguageModel M}.

(** [llmagent.prompts.dialog.collate_chat_history] is not among the sources
    at hand: it is taken as it comes, a function from the list of
    (question, answer) pairs to the text of the history. *)
Variable collate_chat_history : list (str * str) -> str.

Definition followup_to_standalone (chat_history : list (str * str))
    (question : str) : Eff M str :=
  let history := collate_chat_history chat_history in
  let prompt := strip (followup_text history question) in
  let* response := call_generate prompt 1024 in
  let standalone := strip (message response) in
  ret standalone.

End Followup.

(** ** The streaming scope on a named manager *)

Section NamedScope.
Context {M : Type} `{LanguageModel M}.

(** A store that holds a manager object beside the model instance: what a
    block sees when the manager is bound to a name. *)
Definition store_of (self : StreamingIfAllowed.t) (w : world M)
  : world (StreamingIfAllowed.t * M) :=
  mkWorld (self, llm w) (settings_stream w) (calls w).

Definition manager_of (store : world (StreamingIfAllowed.t * M))
  : StreamingIfAllowed.t :=
  fst (llm store).

Definition world_of (store : world (StreamingIfAllowed.t * M)) : world M :=
  mkWorld (snd (llm store)) (settings_stream store) (calls store).

(** [with manager: block] for a manager object bound to a name: the block
    can reach the object, and enter it again. [__enter__] writes
    [old_stream] into the object, and [__exit__] reads it from the object
    as the block left it. *)
Definition scope_on {A} (block : Eff (StreamingIfAllowed.t * M) A)
  : Eff (StreamingIfAllowed.t * M) A :=
  fun store =>
    let '(self1, w1) :=
      StreamingIfAllowed.__enter__ (manager_of store) (world_of store) in
    let '(r, store2) := block (store_of self1 w1) in
    let self2 := manager_of store2 in
    match StreamingIfAllowed.__exit__ self2 (world_of store2) with
    | (Ok _, w3) => (r, store_of self2 w3)
    | (Err e, w3) => (Err e, store_of self2 w3)
    end.

End NamedScope.

(** The fixed text of the prompt of [followup_to_standalone] in front of
    the history, and between the history and the question. *)
Definition followup_opening : str :=
  py "Given the conversationn below, and a follow-up question, rephrase the follow-up "
  ++ newline ++ margin ++ py "question as a standalone question."
  ++ newline ++ margin
  ++ newline ++ margin ++ py "Chat history: ".

Definition followup_closing : str :=
  newline ++ margin ++ py "Follow-up question:".

(** [llm.get_stream()] called by a block. *)
Definition read_stream {M} `{LanguageModel M} : Eff M bool :=
  fun w => (Ok (get_stream (llm w)), w).

(** A block that works on the model and the world and does not reach the
    manager object, run in a store that holds one. *)
Definition on_world {M A} (block : Eff M A)
  : Eff (StreamingIfAllowed.t * M) A :=
  fun store =>
    let '(r, w) := block (world_of store) in
    (r, store_of (manager_of store) w).

(** A template with a placeholder the extractor gives no value for. *)
Definition misnamed_extraction_prompt : template :=
  [Text (py "Question: "); Field (py "question");
   Text (py " Passage: "); Field (py "passage")].

(** A text made of white space only. *)
Definition blank (s : str) : Prop := Forall (fun c => isspace c = true) s.

(** The outcome of each per-passage task of [_get_verbatim_extracts], in
    the order of the passages. *)
Definition extract_outcomes {M} `{LanguageModel M} (T : template)
    (question : str) (passages : list Document) (w : world M)
  : list (result str) :=
  fst (run_tasks (get_verbatim_extract_async T question <$> passages) w).

(** What one extraction task leaves in the call record: nothing when it
    raised before calling the model, otherwise one asynchronous call with
    1024 tokens, whose result decides the outcome of the task. *)
Definition extract_of (r : result LLMResponse) : result str :=
  match r with
  | Ok response => Ok (strip (message response))
  | Err e => Err e
  end.

(** The prompt of the task of one passage. *)
Definition extraction_prompt (T : template) (question : str) (p : Document)
  : result str :=
  format T (<[py "question" := question]> (<[py "content" := content p]> ∅)).

Inductive logged (prompt_of : Document -> result str)
  : list Document -> list (result str) -> list api_call -> Prop :=
  | logged_nil : logged prompt_of [] [] []
  | logged_raised p e ps rs cs :
      prompt_of p = Err e ->
      logged prompt_of ps rs cs ->
      logged prompt_of (p :: ps) (Err e :: rs) cs
  | logged_called p prompt r ps rs cs :
      prompt_of p = Ok prompt ->
      logged prompt_of ps rs cs ->
      logged prompt_of (p :: ps) (extract_of r :: rs)
        (mkCall true prompt 1024 r :: cs).

(** The keyword arguments [get_summary_answer] passes to the template. *)
Definition summary_kwargs (question extracts : str) : gmap str str :=
  <[py "question" := py "Question:" ++ question]>
    (<[py "extracts" := extracts]> ∅).

(** The world after the one synchronous call of [get_summary_answer]. *)
Definition after_generate {M} (w : world M) (prompt : str) (m' : M)
    (response : LLMResponse) : world M :=
  mkWorld m' (settings_stream w)
    (calls w ++ [mkCall false prompt 1024 (Ok response)]).

(** The metadata of the answer: the citation text and the cache flag. *)
Definition answer_metadata (sources : str) (response : LLMResponse)
  : gmap str value :=
  <[py "source" := VStr (py "SOURCE: " ++ sources)]>
    (<[py "cached" := VBool (cached response)]> ∅).

(** * Properties *)

(** ** Strings *)

Section StrFacts.

Lemma lstrip_suffix (s : str) : exists u, s = u ++ lstrip s.
Proof.
  induction s as [|c s [u IH]]; simpl.
  - by exists [].
  - destruct (isspace c).
    + exists (c :: u). simpl. by rewrite <- IH.
    + by exists [].
Qed.

Lemma lstrip_head (s : str) c s' : lstrip s = c :: s' -> isspace c = false.
Proof.
  induction s as [|a s IH]; simpl; [done|].
  destruct (isspace a) eqn:Ha; [done|].
  intros [= <- _]. done.
Qed.

Lemma rstrip_prefix (s : str) : exists u, s = rstrip s ++ u.
Proof.
  unfold rstrip. destruct (lstrip_suffix (rev s)) as [u Hu].
  exists (rev u). rewrite <- rev_app_distr, <- Hu. by rewrite rev_involutive.
Qed.

Lemma rstrip_last (s : str) c s' : rstrip s = s' ++ [c] -> isspace c = false.
Proof.
  unfold rstrip. intros Hs.
  apply (f_equal (@rev N)) in Hs.
  rewrite rev_involutive, rev_app_distr in Hs. simpl in Hs.
  by apply lstrip_head in Hs.
Qed.

Lemma strip_stripped (s : str) : stripped (strip s).
Proof.
  unfold strip. split.
  - intros c s' Hs.
    destruct (rstrip_prefix (lstrip s)) as [u Hu].
    rewrite Hs in Hu. simpl in Hu. by apply lstrip_head in Hu.
  - intros c s' Hs. by apply rstrip_last in Hs.
Qed.

Lemma startswith_spec (p s : str) :
  startswith p s = true <-> exists r, s = p ++ r.
Proof.
  revert s. induction p as [|a p IH]; intros s; simpl.
  - split; [by exists s|done].
  - destruct s as [|b s].
    + split; [done|]. by intros [r Hr].
    + rewrite andb_true_iff, N.eqb_eq, IH. split.
      * intros [-> [r ->]]. by exists r.
      * intros [r [= -> ->]]. split; [done|by exists r].
Qed.

Lemma startswith_split (p s : str) :
  startswith p s = true -> s = p ++ drop (length p) s.
Proof.
  intros [r ->]%startswith_spec. by rewrite drop_app_length.
Qed.

Lemma find_first_Some (sep s before after : str) :
  find_first sep s = Some (before, after) ->
  first_occurrence sep s before after.
Proof.
  revert before after. induction s as [|c s IH]; intros before after.
  - simpl. destruct (startswith sep []) eqn:Hp; [|done].
    intros [= <- <-]. split; [|simpl; lia].
    by apply startswith_split.
  - cbn [find_first]. destruct (startswith sep (c :: s)) eqn:Hp.
    + intros [= <- <-]. split; [|simpl; lia].
      by apply startswith_split.
    + destruct (find_first sep s) as [[b a]|] eqn:Hf; [|done].
      intros [= <- <-]. destruct (IH b a eq_refl) as [Hs Hmin].
      split; [simpl; by rewrite <- Hs|].
      intros [|c' before'] after' Heq.
      * exfalso. simpl in Heq.
        assert (startswith sep (c :: s) = true) as Ht
          by (apply startswith_spec; by exists after').
        congruence.
      * simpl in Heq. injection Heq as _ Heq.
        simpl. specialize (Hmin _ _ Heq). lia.
Qed.

Lemma find_first_None (sep s : str) :
  find_first sep s = None -> ~ contains sep s.
Proof.
  induction s as [|c s IH].
  - simpl. destruct (startswith sep []) eqn:Hp; [done|].
    intros _ (before & after & Heq).
    destruct before; [|done]. simpl in Heq.
    assert (startswith sep [] = true) as Ht
      by (apply startswith_spec; by exists after).
    congruence.
  - cbn [find_first]. destruct (startswith sep (c :: s)) eqn:Hp; [done|].
    destruct (find_first sep s) as [[b a]|] eqn:Hf; [done|].
    intros _ (before & after & Heq). destruct before as [|c' before].
    + simpl in Heq.
      assert (startswith sep (c :: s) = true) as Ht
        by (apply startswith_spec; by exists after).
      congruence.
    + simpl in Heq. injection Heq as _ Heq.
      apply (IH eq_refl). by exists before, after.
Qed.

Lemma first_occurrence_unique (sep s b1 a1 b2 a2 : str) :
  first_occurrence sep s b1 a1 -> first_occurrence sep s b2 a2 ->
  b1 = b2 /\ a1 = a2.
Proof.
  intros [H1 M1] [H2 M2].
  pose proof (M1 _ _ H2). pose proof (M2 _ _ H1).
  assert (length b1 = length b2) as Hlen by lia.
  rewrite H1 in H2.
  apply app_inj_1 in H2 as [-> H2]; [|done].
  apply app_inv_head in H2. done.
Qed.

Lemma find_first_complete (sep s before after : str) :
  first_occurrence sep s before after ->
  find_first sep s = Some (before, after).
Proof.
  intros Hfo. destruct (find_first sep s) as [[b a]|] eqn:Hf.
  - apply find_first_Some in Hf.
    destruct (first_occurrence_unique _ _ _ _ _ _ Hf Hfo) as [-> ->]. done.
  - apply find_first_None in Hf. destruct Hfo as [Hs _].
    exfalso. apply Hf. by exists before, after.
Qed.

Lemma contains_first_occurrence (sep s : str) :
  contains sep s -> exists before after, first_occurrence sep s before after.
Proof.
  intros Hc. destruct (find_first sep s) as [[b a]|] eqn:Hf.
  - exists b, a. by apply find_first_Some.
  - by apply find_first_None in Hf.
Qed.

End StrFacts.

(** ** The summary-answer composer *)

Section SummaryAnswer.
Context {M : Type} `{LanguageModel M}.
Variable SUMMARY_ANSWER_PROMPT_GPT4 : template.

Lemma stringify_each_missing (passages : list Document) (p : Document) :
  p ∈ passages -> metadata p !! py "source" = None ->
  stringify_each passages = Err (KeyError (py "source")).
Proof.
  intros Hin Hp. induction passages as [|d rest IH]; [by inversion Hin|].
  simpl. unfold stringify_passage.
  destruct (metadata d !! py "source") as [v|] eqn:Hd; [|done].
  apply elem_of_cons in Hin as [->|Hin]; [congruence|].
  by rewrite (IH Hin).
Qed.

Lemma get_summary_answer_run question passages w extracts prompt response m' :
  stringify_passages passages = Ok extracts ->
  format SUMMARY_ANSWER_PROMPT_GPT4 (summary_kwargs question extracts)
    = Ok prompt ->
  generate prompt 1024 (llm w) = (Ok response, m') ->
  get_summary_answer SUMMARY_ANSWER_PROMPT_GPT4 question passages w =
    (Ok (match split1 (py "SOURCE:") (strip (message response)) with
         | before :: after :: _ =>
             mkDocument (strip before) (answer_metadata (strip after) response)
         | _ =>
             mkDocument (strip (message response)) (answer_metadata [] response)
         end),
     after_generate w prompt m' response).
Proof.
  intros Hs Hf Hg. unfold get_summary_answer, bind, lift, call_generate.
  rewrite Hs. unfold summary_kwargs in Hf. rewrite Hf, Hg.
  unfold ret, after_generate, answer_metadata.
  by destruct (split1 _ _) as [|before [|after rest]].
Qed.

(** C3. When the trimmed text of the model's response contains the marker
    [SOURCE:], the text can be cut at the first occurrence of the marker,
    and for that cut [get_summary_answer] returns a Document whose content
    is the trimmed text before the marker and whose metadata entry
    [source] is [SOURCE: ] followed by the trimmed text after it (the
    cache flag of the response is carried into the entry [cached]). *)
Theorem summary_answer_with_marker
    question passages w extracts prompt response m' :
  stringify_passages passages = Ok extracts ->
  format SUMMARY_ANSWER_PROMPT_GPT4 (summary_kwargs question extracts)
    = Ok prompt ->
  generate prompt 1024 (llm w) = (Ok response, m') ->
  contains (py "SOURCE:") (strip (message response)) ->
  (exists before after,
     first_occurrence (py "SOURCE:") (strip (message response)) before after)
  /\ forall before after,
       first_occurrence (py "SOURCE:") (strip (message response)) before after ->
       exists doc,
         get_summary_answer SUMMARY_ANSWER_PROMPT_GPT4 question passages w
           = (Ok doc, after_generate w prompt m' response)
         /\ content doc = strip before
         /\ metadata doc !! py "source"
              = Some (VStr (py "SOURCE: " ++ strip after))
         /\ metadata doc !! py "cached" = Some (VBool (cached response)).
Proof.
  intros Hs Hf Hg Hc. split; [by apply contains_first_occurrence|].
  intros before after Hfo.
  rewrite (get_summary_answer_run _ _ _ _ _ _ _ Hs Hf Hg).
  unfold split1. rewrite (find_first_complete _ _ _ _ Hfo).
  eexists. split; [done|]. by vm_compute.
Qed.

(** C4. When the trimmed text of the model's response does not contain
    the marker [SOURCE:], [get_summary_answer] returns a Document whose
    content is the whole trimmed text and whose metadata entry [source]
    is exactly the text [SOURCE: ], the prefix with its trailing blank. *)
Theorem summary_answer_without_marker
    question passages w extracts prompt response m' :
  stringify_passages passages = Ok extracts ->
  format SUMMARY_ANSWER_PROMPT_GPT4 (summary_kwargs question extracts)
    = Ok prompt ->
  generate prompt 1024 (llm w) = (Ok response, m') ->
  ~ contains (py "SOURCE:") (strip (message response)) ->
  exists doc,
    get_summary_answer SUMMARY_ANSWER_PROMPT_GPT4 question passages w
      = (Ok doc, after_generate w prompt m' response)
    /\ content doc = strip (message response)
    /\ metadata doc !! py "source" = Some (VStr (py "SOURCE: "))
    /\ py "SOURCE: " <> [].
Proof.
  intros Hs Hf Hg Hc.
  rewrite (get_summary_answer_run _ _ _ _ _ _ _ Hs Hf Hg).
  unfold split1.
  destruct (find_first _ _) as [[b a]|] eqn:Hfind.
  - exfalso. apply Hc. apply find_first_Some in Hfind as [Heq _].
    by exists b, a.
  - eexists. split; [done|]. by vm_compute.
Qed.

(** C8. When some passage has no [source] key in its metadata,
    [get_summary_answer] raises the [KeyError] of that lookup; it does so
    while rendering the passages, before the prompt is built or the model
    is called: the world is left as it was. *)
Theorem summary_answer_missing_source question passages w p :
  p ∈ passages ->
  metadata p !! py "source" = None ->
  get_summary_answer SUMMARY_ANSWER_PROMPT_GPT4 question passages w
    = (Err (KeyError (py "source")), w)
  /\ stringify_passages passages = Err (KeyError (py "source")).
Proof.
  intros Hin Hp.
  unfold get_summary_answer, bind, lift, stringify_passages.
  by rewrite (stringify_each_missing _ _ Hin Hp).
Qed.

End SummaryAnswer.

(** ** Joining tasks *)

Section Gather.
Context {M A : Type}.
Implicit Types (rs : list (result A)) (tasks : list (Eff M A)).

Lemma run_tasks_length tasks (w : world M) :
  length (fst (run_tasks tasks w)) = length tasks.
Proof.
  revert w. induction tasks as [|t rest IH]; intros w; simpl; [done|].
  destruct (t w) as [r w1]. specialize (IH w1).
  destruct (run_tasks rest w1) as [rs w2]. simpl in *. by rewrite IH.
Qed.

Lemma first_raised_nil completion :
  first_raised completion ([] : list (result A)) = None.
Proof. induction completion as [|i later IH]; simpl; done. Qed.

Lemma first_raised_elem completion rs e :
  first_raised completion rs = Some e -> Err e ∈ rs.
Proof.
  induction completion as [|i later IH]; simpl; [done|].
  destruct (rs !! i) as [[a|e']|] eqn:Hi; [done| |done].
  intros [= ->]. by apply list_elem_of_lookup_2 in Hi.
Qed.

Lemma collect_Ok rs l : collect rs = Ok l -> rs = Ok <$> l.
Proof.
  revert l. induction rs as [|[a|e] rest IH]; intros l; simpl.
  - by intros [= <-].
  - destruct (collect rest) as [l'|e] eqn:Hc; [|done].
    intros [= <-]. simpl. by rewrite (IH l' eq_refl).
  - done.
Qed.

Lemma collect_Err rs e : collect rs = Err e -> Err e ∈ rs.
Proof.
  induction rs as [|[a|e'] rest IH]; simpl; [done| |].
  - destruct (collect rest) as [l'|e''] eqn:Hc; [done|].
    intros [= ->]. right. by apply IH.
  - intros [= ->]. left.
Qed.

Lemma collect_all_Ok rs : Forall is_Ok rs -> is_Ok (collect rs).
Proof.
  induction 1 as [|r rest [a ->] _ [l IH]]; simpl.
  - by exists [].
  - rewrite IH. by exists (a :: l).
Qed.

Lemma collect_some_Err rs e : Err e ∈ rs -> exists e', collect rs = Err e'.
Proof.
  induction rs as [|[a|e0] rest IH]; intros Hin; simpl.
  - by inversion Hin.
  - apply elem_of_cons in Hin as [[=]|Hin].
    destruct (IH Hin) as [e' ->]. by exists e'.
  - by exists e0.
Qed.

(** The join returns values exactly when no task raised, and then the
    values of the tasks in their order. *)
Lemma gather_Ok completion tasks (w : world M) l :
  fst (gather completion tasks w) = Ok l ->
  fst (run_tasks tasks w) = Ok <$> l.
Proof.
  unfold gather. destruct (run_tasks tasks w) as [rs w'].
  destruct (first_raised completion rs); simpl; [done|].
  apply collect_Ok.
Qed.

Lemma gather_all_Ok completion tasks (w : world M) :
  Forall is_Ok (fst (run_tasks tasks w)) ->
  is_Ok (fst (gather completion tasks w)).
Proof.
  unfold gather. destruct (run_tasks tasks w) as [rs w']. simpl.
  intros Hall. destruct (first_raised completion rs) as [e|] eqn:Hf.
  - apply first_raised_elem in Hf.
    rewrite Forall_forall in Hall. by destruct (Hall _ Hf).
  - by apply collect_all_Ok.
Qed.

(** The join raises as soon as one task raised, and what it raises was
    raised by a task. *)
Lemma gather_Err completion tasks (w : world M) e :
  Err e ∈ fst (run_tasks tasks w) ->
  exists e', fst (gather completion tasks w) = Err e'
             /\ Err e' ∈ fst (run_tasks tasks w).
Proof.
  unfold gather. destruct (run_tasks tasks w) as [rs w']. simpl.
  intros Hin. destruct (first_raised completion rs) as [e0|] eqn:Hf.
  - exists e0. split; [done|]. by apply first_raised_elem in Hf.
  - destruct (collect_some_Err _ _ Hin) as [e' He'].
    exists e'. split; [done|]. by apply collect_Err.
Qed.

Lemma gather_world completion tasks (w : world M) :
  snd (gather completion tasks w) = snd (run_tasks tasks w).
Proof.
  unfold gather. destruct (run_tasks tasks w) as [rs w'].
  by destruct (first_raised completion rs).
Qed.

End Gather.

(** ** The concurrent verbatim extractor *)

Section VerbatimExtracts.
Context {M : Type} `{LanguageModel M}.
Variable EXTRACTION_PROMPT_GPT4 : template.

Local Abbreviation task :=
  (get_verbatim_extract_async EXTRACTION_PROMPT_GPT4).
Local Abbreviation outcomes := (extract_outcomes EXTRACTION_PROMPT_GPT4).
Local Abbreviation extracts :=
  (get_verbatim_extracts EXTRACTION_PROMPT_GPT4).

Local Abbreviation prompt_of :=
  (extraction_prompt EXTRACTION_PROMPT_GPT4).

(** One task either raises before it calls the model and leaves the world
    alone, or makes one asynchronous call and ends as that call ends. *)
Lemma extract_task_step question p (w : world M) :
  (exists e, prompt_of question p = Err e
             /\ task question p w = (Err e, w))
  \/ (exists prompt r m,
        prompt_of question p = Ok prompt
        /\ task question p w
            = (extract_of r,
               mkWorld m (settings_stream w)
                 (calls w ++ [mkCall true prompt 1024 r]))).
Proof.
  unfold get_verbatim_extract_async, extraction_prompt, bind, lift,
    call_agenerate.
  destruct (format _ _) as [prompt|e]; [|left; by exists e].
  right. destruct (agenerate prompt 1024 (llm w)) as [r m] eqn:Hr.
  exists prompt, r, m. by destruct r.
Qed.

Lemma run_extract_tasks_logged question passages (w : world M) :
  exists new,
    calls (snd (run_tasks (task question <$> passages) w)) = calls w ++ new
    /\ logged (prompt_of question) passages (outcomes question passages w) new.
Proof.
  unfold extract_outcomes. revert w.
  induction passages as [|p rest IH]; intros w; simpl.
  - exists []. split; [by rewrite app_nil_r|constructor].
  - destruct (extract_task_step question p w)
      as [(e & Hp & ->)|(prompt & r & m & Hp & ->)].
    + destruct (IH w) as (new & Hc & Hl).
      destruct (run_tasks _ w) as [rs w2]. simpl in *.
      exists new. split; [done|by constructor].
    + set (w1 := mkWorld m _ _). destruct (IH w1) as (new & Hc & Hl).
      destruct (run_tasks _ w1) as [rs w2]. simpl in *.
      exists (mkCall true prompt 1024 r :: new).
      split; [by rewrite Hc, <- app_assoc|by constructor].
Qed.

Lemma logged_Ok_length f passages texts new :
  logged f passages (Ok <$> texts) new -> length new = length texts.
Proof.
  revert passages new. induction texts as [|t texts IH];
    intros passages new Hl;
    inversion Hl as [| |p prompt r ps rs cs Hp Hrest]; subst; simpl; [done|].
  f_equal. by eapply IH.
Qed.

Lemma logged_Ok_lookup f passages texts new i text :
  logged f passages (Ok <$> texts) new ->
  texts !! i = Some text ->
  exists p c response,
    passages !! i = Some p /\ new !! i = Some c
    /\ f p = Ok (call_prompt c)
    /\ call_async c = true /\ call_max_tokens c = 1024
    /\ call_result c = Ok response
    /\ text = strip (message response).
Proof.
  revert passages new i. induction texts as [|t texts IH];
    intros passages new i Hl Hi; [done|].
  inversion Hl as [| |p prompt r ps rs cs Hp Hrest]; subst.
  destruct r as [response|e]; [|done].
  match goal with Hr : extract_of _ = Ok _ |- _ => injection Hr as <- end.
  destruct i as [|i]; simpl in Hi.
  - injection Hi as <-. by exists p, (mkCall true prompt 1024 (Ok response)), response.
  - destruct (IH _ _ _ Hrest Hi) as (p' & c & response' & Hfacts).
    by exists p', c, response'.
Qed.

Lemma logged_Err f passages rs new c e :
  logged f passages rs new -> c ∈ new -> call_result c = Err e ->
  Err e ∈ rs.
Proof.
  induction 1 as [|p e0 ps rs cs _ _ IH|p prompt r ps rs cs _ _ IH];
    intros Hin Hc.
  - by inversion Hin.
  - right. by apply IH.
  - apply elem_of_cons in Hin as [->|Hin].
    + simpl in Hc. subst r. left.
    + right. by apply IH.
Qed.

Lemma paired_with_metadata (texts : list str) (passages : list Document) :
  length texts = length passages ->
  let docs := (fun em => mkDocument (fst em) (snd em))
                <$> zip texts (metadata <$> passages) in
  metadata <$> docs = metadata <$> passages /\ content <$> docs = texts.
Proof.
  revert passages. induction texts as [|t texts IH];
    intros [|p passages] Hlen; simpl in *; try done.
  injection Hlen as Hlen. destruct (IH passages Hlen) as [IHm IHc].
  simpl in IHm, IHc. split; f_equal; done.
Qed.

(** When the operation returns, every task ended with a text, and the
    Documents pair these texts with the metadata of the passages. *)
Lemma extracts_Ok completion question passages (w : world M) docs :
  fst (extracts completion question passages w) = Ok docs ->
  exists texts,
    outcomes question passages w = Ok <$> texts
    /\ length texts = length passages
    /\ metadata <$> docs = metadata <$> passages
    /\ content <$> docs = texts.
Proof.
  unfold get_verbatim_extracts, _get_verbatim_extracts, bind, ret.
  destruct (gather completion _ w) as [[texts|e] w'] eqn:Hg; [|done].
  simpl. intros [= <-].
  pose proof (gather_Ok completion (task question <$> passages) w texts) as Ho.
  rewrite Hg in Ho. specialize (Ho eq_refl).
  assert (length texts = length passages) as Hlen.
  { pose proof (run_tasks_length (task question <$> passages) w) as Hl.
    rewrite Ho in Hl. by rewrite !length_fmap in Hl. }
  exists texts. split; [done|]. split; [done|].
  by apply paired_with_metadata.
Qed.

Lemma extracts_world completion question passages (w : world M) :
  snd (extracts completion question passages w)
    = snd (run_tasks (task question <$> passages) w).
Proof.
  unfold get_verbatim_extracts, _get_verbatim_extracts, bind, ret.
  rewrite <- (gather_world completion).
  by destruct (gather completion _ w) as [[texts|e] w'].
Qed.

Lemma extracts_all_Ok completion question passages (w : world M) :
  Forall is_Ok (outcomes question passages w) ->
  is_Ok (fst (extracts completion question passages w)).
Proof.
  intros Hall.
  destruct (gather_all_Ok completion (task question <$> passages) w Hall)
    as [texts Ht].
  unfold get_verbatim_extracts, _get_verbatim_extracts, bind, ret.
  destruct (gather completion _ w) as [[texts'|e] w']; simpl in *; [|done].
  by eexists.
Qed.

Lemma extracts_Err completion question passages (w : world M) e :
  Err e ∈ outcomes question passages w ->
  exists e', fst (extracts completion question passages w) = Err e'
             /\ Err e' ∈ outcomes question passages w.
Proof.
  intros Hin.
  destruct (gather_Err completion (task question <$> passages) w e Hin)
    as (e' & He' & Hin').
  unfold get_verbatim_extracts, _get_verbatim_extracts, bind, ret.
  destruct (gather completion _ w) as [[texts|e0] w']; simpl in *; [done|].
  exists e'. split; [congruence|done].
Qed.

(** C1. For a non-empty list of passages, [get_verbatim_extracts] returns
    a list of Documents when every per-passage task succeeds, and whenever
    it returns one, the list is as long as the list of passages and its
    i-th Document carries the metadata of the i-th passage, whatever the
    order in which the calls complete. *)
Theorem verbatim_extracts_keep_metadata
    completion question passages (w : world M) :
  passages <> [] ->
  (Forall is_Ok (outcomes question passages w) ->
   is_Ok (fst (extracts completion question passages w)))
  /\ forall docs,
       fst (extracts completion question passages w) = Ok docs ->
       length docs = length passages
       /\ forall i p, passages !! i = Some p ->
            exists d, docs !! i = Some d /\ metadata d = metadata p.
Proof.
  intros _. split; [apply extracts_all_Ok|].
  intros docs Hdocs.
  destruct (extracts_Ok _ _ _ _ _ Hdocs) as (texts & _ & _ & Hm & _).
  split.
  - apply (f_equal length) in Hm. by rewrite !length_fmap in Hm.
  - intros i p Hp.
    apply (f_equal (fun l => l !! i)) in Hm.
    rewrite !list_lookup_fmap, Hp in Hm. simpl in Hm.
    destruct (docs !! i) as [d|]; [|done].
    exists d. split; [done|]. by injection Hm.
Qed.

(** C2. If one of the model calls that [get_verbatim_extracts] makes for
    the passages raises, then [get_verbatim_extracts] raises too, with an
    exception raised by one of its tasks, and returns no list of
    Documents, whatever the order in which the calls complete. *)
Theorem verbatim_extracts_fail_as_a_whole
    completion question passages (w : world M) new c e :
  calls (snd (extracts completion question passages w)) = calls w ++ new ->
  c ∈ new ->
  call_result c = Err e ->
  (exists e', fst (extracts completion question passages w) = Err e'
              /\ Err e' ∈ outcomes question passages w)
  /\ forall docs, fst (extracts completion question passages w) <> Ok docs.
Proof.
  intros Hcalls Hin Hc.
  destruct (run_extract_tasks_logged question passages w)
    as (new' & Hnew' & Hlog).
  rewrite extracts_world, Hnew' in Hcalls.
  apply app_inv_head in Hcalls. subst new'.
  pose proof (logged_Err _ _ _ _ _ _ Hlog Hin Hc) as Hraised.
  destruct (extracts_Err completion _ _ _ _ Hraised) as (e' & He' & Hin').
  split; [by exists e'|]. intros docs. congruence.
Qed.

(** C9. For the empty list of passages, [get_verbatim_extracts] returns
    the empty list and leaves the world as it was: no model call is
    made. *)
Theorem verbatim_extracts_of_nothing completion question (w : world M) :
  extracts completion question [] w = (Ok [], w)
  /\ calls (snd (extracts completion question [] w)) = calls w.
Proof.
  assert (extracts completion question [] w = (Ok [], w)) as Heq.
  { unfold get_verbatim_extracts, _get_verbatim_extracts, bind, gather, ret.
    simpl. by rewrite first_raised_nil. }
  by rewrite Heq.
Qed.

(** C10. When [get_verbatim_extracts] returns, it has made one model call
    per passage, in the order of the passages and with the prompt of the
    passage, and the content of the i-th Document is the stripped message
    of the response to the i-th call; so the content has no white space
    at either end. *)
Theorem verbatim_extracts_are_stripped
    completion question passages (w : world M) docs :
  fst (extracts completion question passages w) = Ok docs ->
  exists new,
    calls (snd (extracts completion question passages w)) = calls w ++ new
    /\ length new = length passages
    /\ forall i d, docs !! i = Some d ->
         exists p c response,
           passages !! i = Some p /\ new !! i = Some c
           /\ prompt_of question p = Ok (call_prompt c)
           /\ call_result c = Ok response
           /\ content d = strip (message response)
           /\ stripped (content d).
Proof.
  intros Hdocs.
  destruct (extracts_Ok _ _ _ _ _ Hdocs) as (texts & Ho & Hlen & _ & Hc).
  destruct (run_extract_tasks_logged question passages w)
    as (new & Hnew & Hlog).
  rewrite Ho in Hlog.
  exists new. split; [by rewrite extracts_world|].
  split; [by rewrite (logged_Ok_length _ _ _ _ Hlog)|].
  intros i d Hd.
  assert (texts !! i = Some (content d)) as Ht
    by (by rewrite <- Hc, list_lookup_fmap, Hd).
  destruct (logged_Ok_lookup _ _ _ _ _ _ Hlog Ht)
    as (p & c & response & Hp & Hn & Hprompt & _ & _ & Hr & Hcontent).
  exists p, c, response. repeat (split; [done|]).
  rewrite Hcontent. apply strip_stripped.
Qed.

End VerbatimExtracts.

(** ** The streaming scope *)

Section StreamingScope.
Context {M : Type} `{LanguageModel M}.
Import StreamingIfAllowed.

Lemma scope_unfold {A} (d : bool) (block : Eff M A) (w : world M) :
  let w1 := snd (__enter__ (__init__ d) w) in
  let previous := fst (set_stream (settings_stream w && d) (llm w)) in
  scope d block w
    = (fst (block w1),
       mkWorld (snd (set_stream previous (llm (snd (block w1)))))
         (settings_stream (snd (block w1))) (calls (snd (block w1)))).
Proof.
  unfold scope, __enter__, __exit__, __init__. simpl.
  destruct (set_stream (settings_stream w && d) (llm w)) as [previous m].
  simpl. destruct (block _) as [r w2]. simpl.
  by destruct (set_stream previous (llm w2)) as [b m3].
Qed.

(** A scope whose manager is made by the [with] statement itself: under
    the contract of [set_stream] and [get_stream] the stream flag after the
    scope is what it was before it, whatever the block did to the model and
    whether it returned or raised, and the outcome of the block is the
    outcome of the statement. *)
Lemma scope_with_own_manager_restores {A} (contract : StreamContract M)
    (d : bool) (block : Eff M A) (w : world M) :
  get_stream (llm (snd (scope d block w))) = get_stream (llm w)
  /\ fst (scope d block w) = fst (block (snd (__enter__ (__init__ d) w))).
Proof.
  pose proof (scope_unfold d block w) as Hs. simpl in Hs. rewrite Hs.
  simpl. split; [|done].
  by rewrite set_stream_sets, set_stream_previous.
Qed.

(** C6. Under the contract of [set_stream] and [get_stream], the block of
    a [StreamingIfAllowed] scope with desired flag [d] starts in a world
    where the stream flag of the model is [settings.stream and d], the
    global setting being unchanged; a block that reads the flag reads
    that value, and reads [False] when streaming is disabled globally. *)
Theorem scope_sets_effective_stream (contract : StreamContract M)
    (d : bool) (w : world M) :
  exists w1,
    get_stream (llm w1) = settings_stream w && d
    /\ settings_stream w1 = settings_stream w
    /\ (forall A (block : Eff M A),
          fst (scope d block w) = fst (block w1))
    /\ fst (scope d (fun w' => (Ok (get_stream (llm w')), w')) w)
         = Ok (settings_stream w && d)
    /\ (settings_stream w = false ->
        fst (scope true (fun w' => (Ok (get_stream (llm w')), w')) w)
          = Ok false).
Proof.
  exists (snd (__enter__ (__init__ d) w)).
  assert (forall d', get_stream (llm (snd (__enter__ (__init__ d') w)))
                     = settings_stream w && d') as Hflag.
  { intros d'. unfold __enter__, __init__. simpl.
    pose proof (set_stream_sets (settings_stream w && d') (llm w)) as Hset.
    by destruct (set_stream _ (llm w)) as [previous m]. }
  split; [apply Hflag|]. split.
  { unfold __enter__, __init__. simpl.
    by destruct (set_stream _ (llm w)) as [previous m]. }
  split.
  { intros A block. pose proof (scope_unfold d block w) as Hs.
    simpl in Hs. by rewrite Hs. }
  split.
  - pose proof (scope_unfold d (fun w' => (Ok (get_stream (llm w')), w')) w)
      as Hs. simpl in Hs. rewrite Hs. simpl. by rewrite Hflag.
  - intros Hoff.
    pose proof (scope_unfold true (fun w' => (Ok (get_stream (llm w')), w')) w)
      as Hs. simpl in Hs. rewrite Hs. simpl. by rewrite Hflag, Hoff.
Qed.

End StreamingScope.

(** ** The provider factory *)

Section CreateFacts.
Variables (cls : Type) (OpenAIGPT : cls).
Variables (instance : Type) (construct : cls -> LLMConfig -> instance).

(** C7. [LanguageModel.create] looks the provider tag [config.type] up
    among the registered providers: the tag [openai] finds [OpenAIGPT],
    any other tag finds nothing and the lookup falls back to [OpenAIGPT];
    so for every configuration [create] is the call of [OpenAIGPT] on
    it, and the choice of the class never fails. *)
Theorem create_defaults_to_OpenAIGPT (config : LLMConfig) :
  providers cls OpenAIGPT !! py "openai" = Some OpenAIGPT
  /\ (type config <> py "openai" ->
      providers cls OpenAIGPT !! type config = None)
  /\ create_cls cls OpenAIGPT config = OpenAIGPT
  /\ create cls OpenAIGPT instance construct config
       = construct OpenAIGPT config.
Proof.
  unfold create, create_cls, providers.
  split; [by rewrite lookup_insert_eq|].
  split; [intros Hne; by rewrite lookup_insert_ne|].
  destruct (decide (type config = py "openai")) as [->|Hne].
  - by rewrite lookup_insert_eq.
  - by rewrite lookup_insert_ne.
Qed.

End CreateFacts.

(** ** The operations on a scripted model *)

(** The scripted model keeps the contract of [set_stream]. *)
Lemma scripted_contract : StreamContract Scripted.t.
Proof. split; intros b m; reflexivity. Qed.

Lemma verbatim_extracts_keep_metadata_witness :
  let w := Scripted.start false
             [Scripted.says " fact-1 "; Scripted.says "fact-2";
              Scripted.says "fact-3"] true in
  let run := get_verbatim_extracts sample_extraction_prompt [2; 0; 1]%nat
               (py "q") sample_passages w in
  sample_passages <> []
  /\ is_Ok (fst run)
  /\ forall docs,
       fst run = Ok docs ->
       length docs = length sample_passages
       /\ forall i p, sample_passages !! i = Some p ->
            exists d, docs !! i = Some d /\ metadata d = metadata p.
Proof.
  intros w run.
  assert (sample_passages <> []) as Hne by discriminate.
  destruct (verbatim_extracts_keep_metadata sample_extraction_prompt
              [2; 0; 1]%nat (py "q") sample_passages w Hne) as [Hret Hdocs].
  split; [exact Hne|]. split; [|exact Hdocs].
  apply Hret. vm_compute. repeat constructor; eexists; reflexivity.
Defined.

Lemma verbatim_extracts_fail_as_a_whole_witness :
  let w := Scripted.start false
             [Scripted.says "fact-1"; Scripted.fails "rate limit";
              Scripted.says "fact-3"] true in
  let run := get_verbatim_extracts sample_extraction_prompt [2; 0; 1]%nat
               (py "q") sample_passages w in
  let c := mkCall true (py "Question: q Passage: b") 1024
             (Scripted.fails "rate limit") in
  (calls (snd run) = calls w ++ calls (snd run)
   /\ c ∈ calls (snd run)
   /\ call_result c = Err (ProviderError (py "rate limit")))
  /\ (exists e', fst run = Err e'
                 /\ Err e' ∈ extract_outcomes sample_extraction_prompt
                               (py "q") sample_passages w)
  /\ forall docs, fst run <> Ok docs.
Proof.
  intros w run c.
  assert (calls (snd run) = calls w ++ calls (snd run)) as Hcalls
    by reflexivity.
  assert (c ∈ calls (snd run)) as Hin
    by (vm_compute; apply list_elem_of_further, list_elem_of_here).
  assert (call_result c = Err (ProviderError (py "rate limit"))) as Hc
    by reflexivity.
  split; [exact (conj Hcalls (conj Hin Hc))|].
  exact (verbatim_extracts_fail_as_a_whole sample_extraction_prompt
           [2; 0; 1]%nat (py "q") sample_passages w _ c _ Hcalls Hin Hc).
Defined.

Lemma verbatim_extracts_are_stripped_witness :
  let w := Scripted.start false
             [Scripted.says " fact-1 "; Scripted.says "fact-2";
              Scripted.says "fact-3"] true in
  let run := get_verbatim_extracts sample_extraction_prompt [2; 0; 1]%nat
               (py "q") sample_passages w in
  let docs := [mkDocument (py "fact-1") (metadata (cited "a" "s1"));
               mkDocument (py "fact-2") (metadata (uncited "b"));
               mkDocument (py "fact-3") (metadata (cited "c" "s3"))] in
  fst run = Ok docs
  /\ exists new,
       calls (snd run) = calls w ++ new
       /\ length new = length sample_passages
       /\ forall i d, docs !! i = Some d ->
            exists p c response,
              sample_passages !! i = Some p /\ new !! i = Some c
              /\ extraction_prompt sample_extraction_prompt (py "q") p
                   = Ok (call_prompt c)
              /\ call_result c = Ok response
              /\ content d = strip (message response)
              /\ stripped (content d).
Proof.
  intros w run docs.
  assert (fst run = Ok docs) as Hrun by (vm_compute; reflexivity).
  split; [exact Hrun|].
  exact (verbatim_extracts_are_stripped sample_extraction_prompt
           [2; 0; 1]%nat (py "q") sample_passages w docs Hrun).
Defined.

Lemma summary_answer_with_marker_witness :
  let response :=
    mkLLMResponse (py "...answer text...SOURCE: Doc1, Doc2") 0 false in
  let w := Scripted.start false [Ok response] true in
  let m' := Scripted.mk false [] in
  (stringify_passages [cited "a" "s1"] = Ok sample_extracts
   /\ format sample_summary_prompt (summary_kwargs (py "q") sample_extracts)
        = Ok sample_prompt
   /\ generate sample_prompt 1024 (llm w) = (Ok response, m')
   /\ contains (py "SOURCE:") (strip (message response))
   /\ first_occurrence (py "SOURCE:") (strip (message response))
        (py "...answer text...") (py " Doc1, Doc2"))
  /\ exists doc,
       get_summary_answer sample_summary_prompt (py "q") [cited "a" "s1"] w
         = (Ok doc, after_generate w sample_prompt m' response)
       /\ content doc = py "...answer text..."
       /\ metadata doc !! py "source" = Some (VStr (py "SOURCE: Doc1, Doc2"))
       /\ metadata doc !! py "cached" = Some (VBool false).
Proof.
  intros response w m'.
  assert (stringify_passages [cited "a" "s1"] = Ok sample_extracts) as Hs
    by (vm_compute; reflexivity).
  assert (format sample_summary_prompt (summary_kwargs (py "q") sample_extracts)
            = Ok sample_prompt) as Hf by (vm_compute; reflexivity).
  assert (generate sample_prompt 1024 (llm w) = (Ok response, m')) as Hg
    by reflexivity.
  assert (contains (py "SOURCE:") (strip (message response))) as Hc
    by (exists (py "...answer text..."), (py " Doc1, Doc2");
        vm_compute; reflexivity).
  assert (first_occurrence (py "SOURCE:") (strip (message response))
            (py "...answer text...") (py " Doc1, Doc2")) as Hfo
    by (apply find_first_Some; vm_compute; reflexivity).
  split; [exact (conj Hs (conj Hf (conj Hg (conj Hc Hfo))))|].
  exact (proj2 (summary_answer_with_marker sample_summary_prompt (py "q")
                  [cited "a" "s1"] w sample_extracts sample_prompt response m'
                  Hs Hf Hg Hc) _ _ Hfo).
Defined.

Lemma summary_answer_without_marker_witness :
  let response := mkLLMResponse (py "  just an answer ") 0 true in
  let w := Scripted.start false [Ok response] true in
  let m' := Scripted.mk false [] in
  (stringify_passages [cited "a" "s1"] = Ok sample_extracts
   /\ format sample_summary_prompt (summary_kwargs (py "q") sample_extracts)
        = Ok sample_prompt
   /\ generate sample_prompt 1024 (llm w) = (Ok response, m')
   /\ ~ contains (py "SOURCE:") (strip (message response)))
  /\ exists doc,
       get_summary_answer sample_summary_prompt (py "q") [cited "a" "s1"] w
         = (Ok doc, after_generate w sample_prompt m' response)
       /\ content doc = py "just an answer"
       /\ metadata doc !! py "source" = Some (VStr (py "SOURCE: "))
       /\ py "SOURCE: " <> [].
Proof.
  intros response w m'.
  assert (stringify_passages [cited "a" "s1"] = Ok sample_extracts) as Hs
    by (vm_compute; reflexivity).
  assert (format sample_summary_prompt (summary_kwargs (py "q") sample_extracts)
            = Ok sample_prompt) as Hf by (vm_compute; reflexivity).
  assert (generate sample_prompt 1024 (llm w) = (Ok response, m')) as Hg
    by reflexivity.
  assert (~ contains (py "SOURCE:") (strip (message response))) as Hc
    by (apply find_first_None; vm_compute; reflexivity).
  split; [exact (conj Hs (conj Hf (conj Hg Hc)))|].
  exact (summary_answer_without_marker sample_summary_prompt (py "q")
           [cited "a" "s1"] w sample_extracts sample_prompt response m'
           Hs Hf Hg Hc).
Defined.

Lemma summary_answer_missing_source_witness :
  let w := Scripted.start false [Scripted.says "unused"] true in
  (uncited "b" ∈ sample_passages
   /\ metadata (uncited "b") !! py "source" = None)
  /\ get_summary_answer sample_summary_prompt (py "q") sample_passages w
       = (Err (KeyError (py "source")), w)
  /\ stringify_passages sample_passages = Err (KeyError (py "source")).
Proof.
  intros w.
  assert (uncited "b" ∈ sample_passages) as Hin
    by apply list_elem_of_further, list_elem_of_here.
  assert (metadata (uncited "b") !! py "source" = None) as Hp
    by (vm_compute; reflexivity).
  split; [exact (conj Hin Hp)|].
  exact (summary_answer_missing_source sample_summary_prompt (py "q")
           sample_passages w (uncited "b") Hin Hp).
Defined.

Lemma scope_sets_effective_stream_witness :
  let w := Scripted.start true [] false in
  exists w1,
    get_stream (llm w1) = false
    /\ settings_stream w1 = false
    /\ (forall A (block : Eff Scripted.t A),
          fst (StreamingIfAllowed.scope true block w) = fst (block w1))
    /\ fst (StreamingIfAllowed.scope true
              (fun w' => (Ok (get_stream (llm w')), w')) w) = Ok false
    /\ (settings_stream w = false ->
        fst (StreamingIfAllowed.scope true
               (fun w' => (Ok (get_stream (llm w')), w')) w) = Ok false).
Proof.
  intros w. exact (scope_sets_effective_stream scripted_contract true w).
Defined.

(** ** More on strings *)

Section StripFacts.

Lemma lstrip_split (s : str) : exists u, s = u ++ lstrip s /\ blank u.
Proof.
  induction s as [|c s (u & IH & Hu)]; simpl.
  - exists []. by split; [|constructor].
  - destruct (isspace c) eqn:Hc.
    + exists (c :: u). split; [simpl; by rewrite <- IH|by constructor].
    + exists []. by split; [|constructor].
Qed.

Lemma rstrip_split (s : str) : exists v, s = rstrip s ++ v /\ blank v.
Proof.
  unfold rstrip. destruct (lstrip_split (rev s)) as (u & Hu & Hb).
  exists (rev u). split.
  - rewrite <- rev_app_distr, <- Hu. by rewrite rev_involutive.
  - unfold blank. by apply List.Forall_rev.
Qed.

Lemma lstrip_blank_app (u t : str) : blank u -> lstrip (u ++ t) = lstrip t.
Proof.
  induction 1 as [|c u Hc _ IH]; simpl; [done|]. by rewrite Hc.
Qed.

Lemma lstrip_blank (u : str) : blank u -> lstrip u = [].
Proof.
  intros Hu. rewrite <- (app_nil_r u). by rewrite lstrip_blank_app.
Qed.

Lemma rstrip_app_blank (t v : str) : blank v -> rstrip (t ++ v) = rstrip t.
Proof.
  intros Hv. unfold rstrip. rewrite rev_app_distr.
  rewrite lstrip_blank_app; [done|]. by apply List.Forall_rev.
Qed.

Lemma lstrip_fixed (c : N) (t : str) :
  isspace c = false -> lstrip (c :: t) = c :: t.
Proof. intros Hc. simpl. by rewrite Hc. Qed.

Lemma rstrip_fixed (t : str) (c : N) :
  isspace c = false -> rstrip (t ++ [c]) = t ++ [c].
Proof.
  intros Hc. unfold rstrip. rewrite rev_app_distr. simpl.
  rewrite Hc. simpl. by rewrite rev_involutive.
Qed.

(** A text with no white space at either end is what [strip] leaves of it,
    whatever white space is put around it. *)
Lemma strip_unique (a k b : str) :
  blank a -> blank b -> stripped k -> strip (a ++ k ++ b) = k.
Proof.
  intros Ha Hb [Hhead Hlast]. unfold strip.
  rewrite lstrip_blank_app by done.
  destruct k as [|c k].
  - simpl. rewrite (lstrip_blank b Hb). done.
  - rewrite <- app_comm_cons, lstrip_fixed by (by eapply Hhead).
    rewrite app_comm_cons, rstrip_app_blank by done.
    destruct (exists_last (l := c :: k)) as (k' & y & Hk); [done|].
    rewrite Hk. apply rstrip_fixed. by eapply Hlast.
Qed.

Lemma strip_split (s : str) :
  exists a b, s = a ++ strip s ++ b /\ blank a /\ blank b.
Proof.
  destruct (lstrip_split s) as (a & Ha & Hba).
  destruct (rstrip_split (lstrip s)) as (b & Hb & Hbb).
  exists a, b. split; [|done]. unfold strip. by rewrite <- Hb.
Qed.

Lemma strip_idempotent (s : str) : strip (strip s) = strip s.
Proof.
  rewrite <- (app_nil_l (strip s)) at 1.
  rewrite <- (app_nil_r (strip s)) at 1.
  apply strip_unique; [constructor|constructor|apply strip_stripped].
Qed.

Lemma strip_lstrip (s : str) : strip (lstrip s) = strip s.
Proof.
  destruct (lstrip_split s) as (u & Hu & Hbu).
  destruct (strip_split (lstrip s)) as (a & b & Hs & Ha & Hb).
  rewrite Hu at 2. rewrite Hs at 2. rewrite app_assoc.
  symmetry. apply strip_unique; [|done|apply strip_stripped].
  unfold blank. by apply Forall_app.
Qed.

Lemma strip_rstrip (s : str) : strip (rstrip s) = strip s.
Proof.
  destruct (rstrip_split s) as (v & Hv & Hbv).
  destruct (strip_split (rstrip s)) as (a & b & Hs & Ha & Hb).
  rewrite Hv at 2. rewrite Hs at 2. rewrite <- !app_assoc.
  symmetry. apply strip_unique; [done| |apply strip_stripped].
  unfold blank. by apply Forall_app.
Qed.

Lemma contains_app (sep a s b : str) :
  contains sep s -> contains sep (a ++ s ++ b).
Proof.
  intros (x & y & ->). exists (a ++ x), (y ++ b).
  by rewrite <- !app_assoc.
Qed.

Lemma contains_strip (sep s : str) : contains sep (strip s) -> contains sep s.
Proof.
  intros Hc. destruct (strip_split s) as (a & b & Hs & _ & _).
  rewrite Hs. by apply contains_app.
Qed.

Lemma first_occurrence_before (sep s before after : str) :
  sep <> [] -> first_occurrence sep s before after -> ~ contains sep before.
Proof.
  intros Hsep [Hs Hmin] (x & y & Hb).
  specialize (Hmin x (y ++ sep ++ after)).
  rewrite Hs, Hb, <- !app_assoc in Hmin. specialize (Hmin eq_refl).
  rewrite !length_app in Hmin. destruct sep; [done|]. simpl in Hmin. lia.
Qed.

Lemma contains_join (sep part : str) (parts : list str) :
  part ∈ parts -> contains part (join sep parts).
Proof.
  induction parts as [|p rest IH]; intros Hin; [by inversion Hin|].
  apply elem_of_cons in Hin as [->|Hin].
  - destruct rest as [|q rest]; simpl.
    + exists [], []. by rewrite app_nil_r.
    + by exists [], (sep ++ join sep (q :: rest)).
  - destruct rest as [|q rest]; [by inversion Hin|].
    destruct (IH Hin) as (x & y & Hj).
    change (join sep (p :: q :: rest)) with (p ++ sep ++ join sep (q :: rest)).
    rewrite Hj. exists (p ++ sep ++ x), y. by rewrite <- !app_assoc.
Qed.

End StripFacts.

(** ** More on the summary-answer composer *)

Section SummaryMore.
Context {M : Type} `{LanguageModel M}.
Variable SUMMARY_ANSWER_PROMPT_GPT4 : template.

Local Abbreviation answer :=
  (get_summary_answer SUMMARY_ANSWER_PROMPT_GPT4).

Lemma marker_text : py "SOURCE:" = [83; 79; 85; 82; 67; 69; 58]%N.
Proof. reflexivity. Qed.

(** The marker overlaps no shifted copy of itself: cutting a text in front
    of a marker, after a part that holds none, cuts it at its first
    marker. *)
Lemma marker_first (body cites : str) :
  ~ contains (py "SOURCE:") body ->
  first_occurrence (py "SOURCE:") (body ++ py "SOURCE:" ++ cites) body cites.
Proof.
  intros Hbody. split; [done|]. intros before' after' Heq.
  destruct (decide (length body <= length before')%nat) as [|Hlt]; [done|].
  exfalso. apply app_eq_inv in Heq as [(k & Hb & Hk)|(k & Hb & Hk)].
  - rewrite marker_text in Hk.
    destruct k as [|k1 [|k2 [|k3 [|k4 [|k5 [|k6 [|k7 k]]]]]]];
      simplify_eq/=.
    + rewrite app_nil_r in Hlt. lia.
    + apply Hbody. exists before', k. by rewrite marker_text.
  - rewrite Hb, length_app in Hlt. lia.
Qed.

Lemma contains_trans (a b c : str) :
  contains a b -> contains b c -> contains a c.
Proof.
  intros Hab (x & y & ->). by apply contains_app.
Qed.

Lemma stringify_each_Ok (passages : list Document) :
  Forall (fun p => is_Some (metadata p !! py "source")) passages ->
  is_Ok (stringify_each passages).
Proof.
  induction 1 as [|p rest [v Hv] _ [l IH]]; simpl.
  - by exists [].
  - unfold stringify_passage. rewrite Hv, IH. by eexists.
Qed.

Lemma stringify_each_elem (passages : list Document) l p :
  stringify_each passages = Ok l -> p ∈ passages ->
  exists s, stringify_passage p = Ok s /\ s ∈ l.
Proof.
  revert l. induction passages as [|d rest IH]; intros l Hl Hin;
    [by inversion Hin|].
  simpl in Hl. destruct (stringify_passage d) as [s|e] eqn:Hd; [|done].
  destruct (stringify_each rest) as [l'|e] eqn:Hrest; [|done].
  injection Hl as <-. apply elem_of_cons in Hin as [->|Hin].
  - exists s. split; [done|left].
  - destruct (IH l' eq_refl Hin) as (s' & Hs' & Hin').
    exists s'. split; [done|by right].
Qed.

(** X1. Rendering the passages fails only for want of a [source] key: it
    succeeds exactly when every passage has one. *)
Theorem stringify_passages_succeeds_iff (passages : list Document) :
  is_Ok (stringify_passages passages)
  <-> Forall (fun p => is_Some (metadata p !! py "source")) passages.
Proof.
  split.
  - intros [text Ht]. apply Forall_forall. intros p Hin.
    destruct (metadata p !! py "source") as [v|] eqn:Hp; [by eexists|].
    unfold stringify_passages in Ht.
    by rewrite (stringify_each_missing _ _ Hin Hp) in Ht.
  - intros Hall. destruct (stringify_each_Ok _ Hall) as [l Hl].
    unfold stringify_passages. rewrite Hl. by eexists.
Qed.

(** X2. The rendered text holds the content of every passage and the text
    of its source, as they are. *)
Theorem stringify_passages_keeps_texts (passages : list Document) text p :
  stringify_passages passages = Ok text ->
  p ∈ passages ->
  contains (content p) text
  /\ exists source, metadata p !! py "source" = Some source
                    /\ contains (value_str source) text.
Proof.
  unfold stringify_passages. intros Ht Hin.
  destruct (stringify_each passages) as [l|e] eqn:Hl; [|done].
  injection Ht as <-.
  destruct (stringify_each_elem _ _ _ Hl Hin) as (s & Hs & Hsl).
  pose proof (contains_join newline s l Hsl) as Hjoin.
  unfold stringify_passage in Hs.
  destruct (metadata p !! py "source") as [source|]; [|done].
  injection Hs as <-. split.
  - eapply contains_trans; [|exact Hjoin].
    exists (newline ++ indent ++ py "Extract: "),
      (newline ++ indent ++ py "Source: " ++ value_str source
       ++ newline ++ indent).
    by rewrite <- !app_assoc.
  - exists source. split; [done|].
    eapply contains_trans; [|exact Hjoin].
    exists (newline ++ indent ++ py "Extract: " ++ content p
            ++ newline ++ indent ++ py "Source: "),
      (newline ++ indent).
    by rewrite <- !app_assoc.
Qed.

Lemma get_summary_answer_Ok question passages (w : world M) doc :
  fst (answer question passages w) = Ok doc ->
  exists extracts prompt response m',
    stringify_passages passages = Ok extracts
    /\ format SUMMARY_ANSWER_PROMPT_GPT4 (summary_kwargs question extracts)
         = Ok prompt
    /\ generate prompt 1024 (llm w) = (Ok response, m').
Proof.
  unfold get_summary_answer, bind, lift, call_generate, summary_kwargs.
  destruct (stringify_passages passages) as [extracts|e]; [|done].
  destruct (format _ _) as [prompt|e] eqn:Hf; [|done].
  destruct (generate prompt 1024 (llm w)) as [[response|e] m'] eqn:Hg;
    [|done].
  intros _. by exists extracts, prompt, response, m'.
Qed.

(** X3. When the passages render and the template formats,
    [get_summary_answer] makes exactly one synchronous call, with the
    formatted prompt and 1024 tokens; when that call raises, the exception
    is raised to the caller as it is, and no Document is returned. *)
Theorem summary_answer_provider_failure
    question passages (w : world M) extracts prompt e m' :
  stringify_passages passages = Ok extracts ->
  format SUMMARY_ANSWER_PROMPT_GPT4 (summary_kwargs question extracts)
    = Ok prompt ->
  generate prompt 1024 (llm w) = (Err e, m') ->
  answer question passages w
    = (Err e,
       mkWorld m' (settings_stream w)
         (calls w ++ [mkCall false prompt 1024 (Err e)])).
Proof.
  intros Hs Hf Hg. unfold get_summary_answer, bind, lift, call_generate.
  rewrite Hs. unfold summary_kwargs in Hf. by rewrite Hf, Hg.
Qed.

(** X4. Whatever its input, [get_summary_answer] makes at most one model
    call, a synchronous one with 1024 tokens, and leaves the global
    streaming setting alone; when it makes no call the model instance is
    untouched. *)
Theorem summary_answer_calls question passages (w : world M) :
  exists new,
    calls (snd (answer question passages w)) = calls w ++ new
    /\ (length new <= 1)%nat
    /\ Forall (fun c => call_async c = false /\ call_max_tokens c = 1024) new
    /\ settings_stream (snd (answer question passages w)) = settings_stream w
    /\ (new = [] -> snd (answer question passages w) = w).
Proof.
  assert (forall w' : world M, w' = w ->
            exists new, calls w' = calls w ++ new
              /\ (length new <= 1)%nat
              /\ Forall (fun c => call_async c = false
                                  /\ call_max_tokens c = 1024) new
              /\ settings_stream w' = settings_stream w
              /\ (new = [] -> w' = w)) as Hsame.
  { intros w' ->. exists []. rewrite app_nil_r.
    repeat split; [simpl; lia|constructor]. }
  unfold get_summary_answer, bind, lift, call_generate.
  destruct (stringify_passages passages) as [extracts|e];
    [|by apply Hsame].
  destruct (format _ _) as [prompt|e]; [|by apply Hsame].
  destruct (generate prompt 1024 (llm w)) as [r m'] eqn:Hg.
  exists [mkCall false prompt 1024 r].
  assert (Forall (fun c => call_async c = false /\ call_max_tokens c = 1024)
            [mkCall false prompt 1024 r]) as Hcall by (by repeat constructor).
  destruct r as [response|e]; simpl.
  - by destruct (split1 _ _) as [|before [|after rest]].
  - done.
Qed.

End SummaryMore.

Section SummaryParse.
Context {M : Type} `{LanguageModel M}.
Variable SUMMARY_ANSWER_PROMPT_GPT4 : template.

Local Abbreviation answer :=
  (get_summary_answer SUMMARY_ANSWER_PROMPT_GPT4).

Lemma stripped_nil : stripped [].
Proof. split; intros c s' Hs; [done|by destruct s']. Qed.

Lemma answer_metadata_keys sources response key :
  is_Some (answer_metadata sources response !! key)
  <-> key = py "source" \/ key = py "cached".
Proof.
  unfold answer_metadata.
  destruct (decide (key = py "source")) as [->|Hs].
  { rewrite lookup_insert_eq. split; [by left|by eexists]. }
  rewrite lookup_insert_ne by done.
  destruct (decide (key = py "cached")) as [->|Hc].
  { rewrite lookup_insert_eq. split; [by right|by eexists]. }
  rewrite lookup_insert_ne, lookup_empty by done.
  split; [by intros [v Hv]|by intros [|]].
Qed.

(** X5. Every Document [get_summary_answer] returns has a content with no
    white space at either end, and a metadata of exactly two entries:
    [source], the text [SOURCE: ] followed by a citation text with no
    white space at either end, and [cached], the cache flag of the
    response to the one call it made. *)
Theorem summary_answer_shape question passages (w : world M) doc :
  fst (answer question passages w) = Ok doc ->
  exists prompt response sources,
    calls (snd (answer question passages w))
      = calls w ++ [mkCall false prompt 1024 (Ok response)]
    /\ metadata doc !! py "source" = Some (VStr (py "SOURCE: " ++ sources))
    /\ metadata doc !! py "cached" = Some (VBool (cached response))
    /\ (forall key, is_Some (metadata doc !! key)
                    <-> key = py "source" \/ key = py "cached")
    /\ stripped sources
    /\ stripped (content doc).
Proof.
  intros Hdoc.
  destruct (get_summary_answer_Ok _ _ _ _ _ Hdoc)
    as (extracts & prompt & response & m' & Hs & Hf & Hg).
  rewrite (get_summary_answer_run _ _ _ _ _ _ _ _ Hs Hf Hg) in Hdoc |- *.
  simpl in Hdoc. injection Hdoc as <-.
  exists prompt, response.
  destruct (split1 _ _) as [|before [|after rest]].
  - exists []. simpl. repeat split; try apply answer_metadata_keys;
      try apply stripped_nil; try apply strip_stripped; done.
  - exists []. simpl. repeat split; try apply answer_metadata_keys;
      try apply stripped_nil; try apply strip_stripped; done.
  - exists (strip after). simpl.
    repeat split; try apply answer_metadata_keys;
      try apply strip_stripped; done.
Qed.

(** X6. The content of a Document [get_summary_answer] returns never holds
    the marker [SOURCE:]. *)
Theorem summary_answer_content_has_no_marker
    question passages (w : world M) doc :
  fst (answer question passages w) = Ok doc ->
  ~ contains (py "SOURCE:") (content doc).
Proof.
  intros Hdoc.
  destruct (get_summary_answer_Ok _ _ _ _ _ Hdoc)
    as (extracts & prompt & response & m' & Hs & Hf & Hg).
  rewrite (get_summary_answer_run _ _ _ _ _ _ _ _ Hs Hf Hg) in Hdoc.
  simpl in Hdoc. injection Hdoc as <-. unfold split1.
  destruct (find_first _ _) as [[before after]|] eqn:Hfind; simpl.
  - apply find_first_Some, first_occurrence_before in Hfind; [|done].
    intros Hc. by apply Hfind, contains_strip.
  - by apply find_first_None.
Qed.

(** X7. A response made of an answer that holds no marker, the marker
    [SOURCE:] and a citation text is read back as it was put together: the
    content is the stripped answer and the entry [source] is [SOURCE: ]
    followed by the stripped citation text, further markers in it
    included. *)
Theorem summary_answer_round_trip
    question passages (w : world M) extracts prompt response m' body cites :
  stringify_passages passages = Ok extracts ->
  format SUMMARY_ANSWER_PROMPT_GPT4 (summary_kwargs question extracts)
    = Ok prompt ->
  generate prompt 1024 (llm w) = (Ok response, m') ->
  message response = body ++ py "SOURCE:" ++ cites ->
  ~ contains (py "SOURCE:") body ->
  exists doc,
    answer question passages w
      = (Ok doc, after_generate w prompt m' response)
    /\ content doc = strip body
    /\ metadata doc !! py "source"
         = Some (VStr (py "SOURCE: " ++ strip cites)).
Proof.
  intros Hs Hf Hg Hmsg Hbody.
  rewrite (get_summary_answer_run _ _ _ _ _ _ _ _ Hs Hf Hg).
  destruct (lstrip_split body) as (u & Hu & Hbu).
  destruct (rstrip_split cites) as (v & Hv & Hbv).
  assert (strip (message response)
          = lstrip body ++ py "SOURCE:" ++ rstrip cites) as Hfinal.
  { rewrite Hmsg. rewrite Hu at 1. rewrite Hv at 1.
    replace ((u ++ lstrip body) ++ py "SOURCE:" ++ rstrip cites ++ v)
      with (u ++ (lstrip body ++ py "SOURCE:" ++ rstrip cites) ++ v)
      by (by rewrite <- !app_assoc).
    apply strip_unique; [done|done|]. split.
    - intros c s' Heq. destruct (lstrip body) as [|c' l] eqn:Hl.
      + rewrite marker_text in Heq. by injection Heq as <- _.
      + injection Heq as <- _. by apply (lstrip_head body c' l).
    - intros c s' Heq.
      destruct (rstrip cites) as [|y r] eqn:Hr using rev_ind.
      + rewrite marker_text in Heq.
        change [83; 79; 85; 82; 67; 69; 58]%N
          with ([83; 79; 85; 82; 67; 69] ++ [58])%N in Heq.
        rewrite app_nil_r, app_assoc in Heq.
        by apply app_inj_tail in Heq as [_ <-].
      + clear IHr. rewrite !app_assoc in Heq.
        apply app_inj_tail in Heq as [_ <-].
        by apply (rstrip_last cites y r). }
  assert (first_occurrence (py "SOURCE:") (strip (message response))
            (lstrip body) (rstrip cites)) as Hfo.
  { rewrite Hfinal. apply marker_first. intros Hc. apply Hbody.
    rewrite Hu. rewrite <- (app_nil_r (lstrip body)). by apply contains_app. }
  unfold split1. rewrite (find_first_complete _ _ _ _ Hfo).
  eexists. split; [done|]. simpl.
  rewrite strip_lstrip, strip_rstrip. split; [done|].
  unfold answer_metadata. by rewrite lookup_insert_eq.
Qed.

End SummaryParse.

(** ** More on templates and on the verbatim extractor *)

Section FormatFacts.

Lemma format_Err (t : template) (kwargs : gmap str str) e :
  format t kwargs = Err e ->
  exists name, e = KeyError name /\ Field name ∈ t /\ kwargs !! name = None.
Proof.
  induction t as [|[s|name] t IH]; simpl; [done| |].
  - destruct (format t kwargs) as [rest|e'] eqn:Ht; [done|].
    intros [= ->]. destruct (IH eq_refl) as (name & -> & Hin & Hk).
    exists name. split; [done|]. split; [by right|done].
  - destruct (kwargs !! name) as [v|] eqn:Hk.
    + destruct (format t kwargs) as [rest|e'] eqn:Ht; [done|].
      intros [= ->]. destruct (IH eq_refl) as (name' & -> & Hin & Hk').
      exists name'. split; [done|]. split; [by right|done].
    + intros [= <-]. exists name. split; [done|]. split; [left|done].
Qed.

(** Whether formatting fails, and how, depends on the names of the keyword
    arguments only, not on their values. *)
Lemma format_Err_names (t : template) (kwargs kwargs' : gmap str str) e :
  (forall name, kwargs !! name = None <-> kwargs' !! name = None) ->
  format t kwargs = Err e -> format t kwargs' = Err e.
Proof.
  intros Hnames. induction t as [|[s|name] t IH]; simpl; [done| |].
  - destruct (format t kwargs) as [rest|e'] eqn:Ht; [done|].
    intros [= ->]. by rewrite IH.
  - destruct (kwargs !! name) as [v|] eqn:Hk.
    + destruct (kwargs' !! name) as [v'|] eqn:Hk';
        [|apply (proj2 (Hnames name)) in Hk';
          discriminate (eq_trans (eq_sym Hk) Hk')].
      destruct (format t kwargs) as [rest|e'] eqn:Ht; [done|].
      intros [= ->]. by rewrite IH.
    + apply (proj1 (Hnames name)) in Hk.
      by destruct (kwargs' !! name) as [v'|] eqn:Hk'.
Qed.

End FormatFacts.

Section VerbatimMore.
Context {M : Type} `{LanguageModel M}.
Variable EXTRACTION_PROMPT_GPT4 : template.

Local Abbreviation task :=
  (get_verbatim_extract_async EXTRACTION_PROMPT_GPT4).
Local Abbreviation outcomes := (extract_outcomes EXTRACTION_PROMPT_GPT4).
Local Abbreviation extracts :=
  (get_verbatim_extracts EXTRACTION_PROMPT_GPT4).
Local Abbreviation prompt_of :=
  (extraction_prompt EXTRACTION_PROMPT_GPT4).

Lemma run_extract_tasks_settings question passages (w : world M) :
  settings_stream (snd (run_tasks (task question <$> passages) w))
    = settings_stream w.
Proof.
  revert w. induction passages as [|p rest IH]; intros w; simpl; [done|].
  destruct (extract_task_step EXTRACTION_PROMPT_GPT4 question p w)
    as [(e & _ & ->)|(prompt & r & m & _ & ->)].
  - specialize (IH w). by destruct (run_tasks _ w) as [rs w2].
  - set (w1 := mkWorld m _ _). specialize (IH w1).
    by destruct (run_tasks _ w1) as [rs w2].
Qed.

Lemma logged_calls f passages rs new :
  logged f passages rs new ->
  (length new <= length passages)%nat
  /\ Forall (fun c => call_async c = true /\ call_max_tokens c = 1024) new.
Proof.
  induction 1 as [|p e ps rs cs _ _ [IHl IHf]|p prompt r ps rs cs _ _ [IHl IHf]];
    simpl.
  - split; [lia|constructor].
  - split; [lia|done].
  - split; [lia|]. by constructor.
Qed.

(** X9. Whatever its input and however it ends, [get_verbatim_extracts]
    makes asynchronous model calls only, each with 1024 tokens and at most
    one per passage, and leaves the global streaming setting alone. *)
Theorem verbatim_extracts_calls
    completion question passages (w : world M) :
  exists new,
    calls (snd (extracts completion question passages w)) = calls w ++ new
    /\ (length new <= length passages)%nat
    /\ Forall (fun c => call_async c = true /\ call_max_tokens c = 1024) new
    /\ settings_stream (snd (extracts completion question passages w))
         = settings_stream w.
Proof.
  destruct (run_extract_tasks_logged EXTRACTION_PROMPT_GPT4 question passages w)
    as (new & Hnew & Hlog).
  destruct (logged_calls _ _ _ _ Hlog) as [Hlen Hall].
  exists new. rewrite extracts_world.
  by rewrite run_extract_tasks_settings.
Qed.

(** X11. With a template that has a placeholder other than [question] and
    [content], [get_verbatim_extracts] on a non-empty list of passages
    raises the [KeyError] of such a placeholder and leaves the world as it
    was: no model call is made. *)
Theorem verbatim_extracts_bad_template
    completion question passages (w : world M) name :
  Field name ∈ EXTRACTION_PROMPT_GPT4 ->
  name <> py "question" -> name <> py "content" ->
  passages <> [] ->
  exists name',
    Field name' ∈ EXTRACTION_PROMPT_GPT4
    /\ name' <> py "question" /\ name' <> py "content"
    /\ extracts completion question passages w = (Err (KeyError name'), w).
Proof.
  intros Hin Hq Hc Hne.
  destruct passages as [|p0 rest]; [done|].
  assert (exists e, prompt_of question p0 = Err e) as [e He].
  { destruct (prompt_of question p0) as [prompt|e] eqn:Hp; [|by exists e].
    exfalso. unfold extraction_prompt in Hp.
    assert (forall t kw text, format t kw = Ok text ->
              Field name ∈ t -> is_Some (kw !! name)) as Hok.
    { clear. induction t as [|[s|n] t IH]; intros kw text Ht Hin;
        [by inversion Hin| |]; simpl in Ht.
      - destruct (format t kw) as [rest|e] eqn:Hr; [|done].
        apply elem_of_cons in Hin as [[=]|Hin]. by eapply IH.
      - destruct (kw !! n) as [v|] eqn:Hk; [|done].
        destruct (format t kw) as [rest|e] eqn:Hr; [|done].
        apply elem_of_cons in Hin as [[= ->]|Hin]; [by eexists|].
        by eapply IH. }
    destruct (Hok _ _ _ Hp Hin) as [v Hv].
    by rewrite !lookup_insert_ne, lookup_empty in Hv. }
  assert (forall p, prompt_of question p = Err e) as Hall.
  { intros p. unfold extraction_prompt in *.
    eapply format_Err_names; [|exact He]. intros n.
    destruct (decide (n = py "question")) as [->|Hnq];
      [by rewrite !lookup_insert_eq|].
    rewrite !(lookup_insert_ne _ (py "question")) by done.
    destruct (decide (n = py "content")) as [->|Hnc];
      [by rewrite !lookup_insert_eq|].
    by rewrite !lookup_insert_ne. }
  destruct (format_Err _ _ _ He) as (name' & -> & Hin' & Hk).
  exists name'. split; [done|].
  split; [intros ->; by rewrite lookup_insert_eq in Hk|].
  split; [intros ->; by rewrite lookup_insert_ne, lookup_insert_eq in Hk|].
  assert (forall ps, run_tasks (task question <$> ps) w
                     = (replicate (length ps) (Err (KeyError name')), w))
    as Hrun.
  { induction ps as [|p ps IH]; [done|].
    rewrite fmap_cons. cbn [run_tasks length replicate].
    destruct (extract_task_step EXTRACTION_PROMPT_GPT4 question p w)
      as [(e & Hp & ->)|(prompt & r & m & Hp & _)];
      [|rewrite Hall in Hp; done].
    rewrite Hall in Hp. injection Hp as <-. by rewrite IH. }
  unfold get_verbatim_extracts, _get_verbatim_extracts, bind, gather.
  rewrite Hrun. simpl.
  destruct (first_raised completion _) as [e0|] eqn:Hf; [|done].
  apply first_raised_elem in Hf.
  change (Err e0 ∈ replicate (length (p0 :: rest))
                     (Err (A:=str) (KeyError name'))) in Hf.
  apply elem_of_replicate_inv in Hf. by injection Hf as ->.
Qed.

End VerbatimMore.

(** ** The standalone-question rewriter *)

Section FollowupFacts.
Context {M : Type} `{LanguageModel M}.
Variable collate_chat_history : list (str * str) -> str.

Local Abbreviation followup :=
  (followup_to_standalone collate_chat_history).

Lemma followup_text_split (history question : str) :
  exists v,
    blank v
    /\ followup_text history question
        = (newline ++ margin)
          ++ (followup_opening ++ history ++ followup_closing
              ++ rstrip (py " " ++ question))
          ++ (v ++ py " " ++ newline ++ margin).
Proof.
  destruct (rstrip_split (py " " ++ question)) as (v & Hv & Hb).
  exists v. split; [done|].
  rewrite <- !app_assoc.
  rewrite (app_assoc (rstrip (py " " ++ question)) v), <- Hv.
  unfold followup_text, followup_opening, followup_closing.
  rewrite <- !app_assoc. reflexivity.
Qed.

Lemma followup_prompt (history question : str) :
  strip (followup_text history question)
  = followup_opening ++ history ++ followup_closing
    ++ rstrip (py " " ++ question).
Proof.
  destruct (followup_text_split history question) as (v & Hv & ->).
  apply strip_unique.
  - unfold blank. by repeat constructor.
  - unfold blank. apply Forall_app. split; [done|by repeat constructor].
  - split.
    + intros c s' Heq.
      assert (exists t, followup_opening = 71%N :: t) as [t Ht]
        by (eexists; reflexivity).
      rewrite Ht in Heq. by injection Heq as <- _.
    + intros c s' Heq.
      assert (followup_closing
              = (newline ++ margin ++ py "Follow-up question") ++ [58%N])
        as Hclosing by reflexivity.
      destruct (rstrip (py " " ++ question)) as [|y r] eqn:Hr using rev_ind.
      * rewrite Hclosing, app_nil_r, !app_assoc in Heq.
        by apply app_inj_tail in Heq as [_ <-].
      * clear IHr. rewrite !app_assoc in Heq.
        apply app_inj_tail in Heq as [_ <-].
        by apply (rstrip_last (py " " ++ question) y r).
Qed.

(** X12. [followup_to_standalone] makes exactly one synchronous call, with
    1024 tokens. Its prompt is the instruction text, the collated history,
    the line of the follow-up question and the question with the white
    space at its end dropped; the prompt has no white space at either end.
    The result is the stripped message of the response, with no white
    space at either end; an exception of the call is raised to the caller
    as it is. *)
Theorem followup_to_standalone_run
    (chat_history : list (str * str)) (question : str) (w : world M) :
  let prompt :=
    followup_opening ++ collate_chat_history chat_history
    ++ followup_closing ++ rstrip (py " " ++ question) in
  stripped prompt
  /\ exists r m',
       generate prompt 1024 (llm w) = (r, m')
       /\ snd (followup chat_history question w)
            = mkWorld m' (settings_stream w)
                (calls w ++ [mkCall false prompt 1024 r])
       /\ match r with
          | Ok response =>
              fst (followup chat_history question w)
                = Ok (strip (message response))
              /\ stripped (strip (message response))
          | Err e => fst (followup chat_history question w) = Err e
          end.
Proof.
  intros prompt. split.
  - unfold prompt. rewrite <- followup_prompt. apply strip_stripped.
  - unfold followup_to_standalone, bind, call_generate, ret.
    rewrite followup_prompt. fold prompt.
    destruct (generate prompt 1024 (llm w)) as [r m'] eqn:Hg.
    exists r, m'. split; [done|].
    destruct r as [response|e]; simpl; [|done].
    split; [done|]. split; [done|apply strip_stripped].
Qed.

End FollowupFacts.

(** ** More on the streaming scope *)

Section ScopeMore.
Context {M : Type} `{LanguageModel M}.
Import StreamingIfAllowed.

(** X13. Scopes nest: when a scope of desired flag [d2], with a manager
    of its own, is run inside a scope of desired flag [d1] and its
    exception, if any, is caught there, then once the inner scope is left
    the flag reads [settings.stream and d1] again, whatever the inner block
    did to the model and whether it returned or raised; after the outer
    scope the flag is what it was at the start. *)
Theorem nested_scopes {A} (contract : StreamContract M)
    (d1 d2 : bool) (block : Eff M A) (w : world M) :
  let outer_block : Eff M bool :=
    fun w1 =>
      let '(_, w2) := scope d2 block w1 in
      read_stream w2 in
  fst (scope d1 outer_block w) = Ok (settings_stream w && d1)
  /\ get_stream (llm (snd (scope d1 outer_block w))) = get_stream (llm w).
Proof.
  intros outer_block.
  pose proof (scope_unfold d1 outer_block w) as Hs. simpl in Hs. rewrite Hs.
  clear Hs. simpl.
  split; [|by rewrite set_stream_sets, set_stream_previous].
  unfold outer_block. set (w1 := snd (__enter__ (__init__ d1) w)).
  assert (get_stream (llm w1) = settings_stream w && d1) as Hflag.
  { unfold w1, __enter__, __init__. simpl.
    pose proof (set_stream_sets (settings_stream w && d1) (llm w)) as Hsets.
    by destruct (set_stream _ (llm w)) as [previous m]. }
  pose proof (scope_unfold d2 block w1) as Hbl. simpl in Hbl.
  rewrite Hbl. clear Hbl. unfold read_stream. simpl.
  by rewrite set_stream_sets, set_stream_previous, Hflag.
Qed.

Lemma world_of_store_of (self : t) (w : world M) :
  world_of (store_of self w) = w.
Proof. by destruct w. Qed.

Lemma enter_run (contract : StreamContract M) (self : t) (w : world M) :
  exists m1,
    get_stream m1 = settings_stream w && stream self
    /\ __enter__ self w
        = (mk (stream self) (Some (get_stream (llm w))),
           mkWorld m1 (settings_stream w) (calls w)).
Proof.
  unfold __enter__.
  pose proof (set_stream_sets (settings_stream w && stream self) (llm w)) as Hs.
  pose proof (set_stream_previous (settings_stream w && stream self) (llm w))
    as Hp.
  destruct (set_stream _ (llm w)) as [previous m1]. simpl in *.
  exists m1. by rewrite Hp.
Qed.

Lemma exit_run (contract : StreamContract M) (d previous : bool)
    (w : world M) :
  exists m3,
    get_stream m3 = previous
    /\ __exit__ (mk d (Some previous)) w
        = (Ok tt, mkWorld m3 (settings_stream w) (calls w)).
Proof.
  unfold __exit__. simpl.
  pose proof (set_stream_sets previous (llm w)) as Hs.
  destruct (set_stream previous (llm w)) as [b m3]. simpl in *.
  by exists m3.
Qed.

(** A scope on a named manager whose block leaves [old_stream] set: the
    block starts with the effective flag and with [old_stream] holding the
    flag of before; at the end the flag is what [old_stream] holds then. *)
Lemma scope_on_run {A} (contract : StreamContract M)
    (block : Eff (t * M) A) (self : t) (w : world M) :
  exists m1,
    get_stream m1 = settings_stream w && stream self
    /\ let store1 :=
         store_of (mk (stream self) (Some (get_stream (llm w))))
           (mkWorld m1 (settings_stream w) (calls w)) in
       forall d' previous,
         manager_of (snd (block store1)) = mk d' (Some previous) ->
         exists m3,
           get_stream m3 = previous
           /\ scope_on block (store_of self w)
               = (fst (block store1),
                  store_of (mk d' (Some previous))
                    (mkWorld m3 (settings_stream (snd (block store1)))
                       (calls (snd (block store1))))).
Proof.
  destruct (enter_run contract self w) as (m1 & Hm1 & Henter).
  exists m1. split; [done|]. intros store1 d' previous Hman.
  unfold scope_on. rewrite world_of_store_of.
  change (manager_of (store_of self w)) with self. rewrite Henter.
  fold store1. destruct (block store1) as [r store2]. simpl in *.
  rewrite Hman.
  destruct (exit_run contract d' previous (world_of store2))
    as (m3 & Hm3 & Hexit).
  rewrite Hexit. by exists m3.
Qed.

(** X14. One manager object used for two nested scopes loses the flag it
    should restore: the inner [__enter__] overwrites [old_stream], so
    after both scopes the flag is [settings.stream and stream] of the
    manager, whatever it was at the start and whatever the inner block,
    which does not reach the manager, did to the model. *)
Theorem shared_manager_loses_flag {A} (contract : StreamContract M)
    (d : bool) (block : Eff M A) (w : world M) :
  get_stream
    (snd (llm (snd (scope_on (scope_on (on_world block))
                      (store_of (__init__ d) w)))))
  = settings_stream w && d.
Proof.
  destruct (scope_on_run contract (scope_on (on_world block)) (__init__ d) w)
    as (m1 & Hm1 & Houter).
  simpl in Houter.
  set (self1 := mk d (Some (get_stream (llm w)))) in *.
  set (w1 := mkWorld m1 (settings_stream w) (calls w)) in *.
  destruct (scope_on_run contract (on_world block) self1 w1)
    as (m2 & Hm2 & Hinner).
  simpl in Hinner.
  set (store2 := store_of (mk d (Some (get_stream m1)))
                   (mkWorld m2 (settings_stream w) (calls w))) in *.
  assert (manager_of (snd (on_world block store2))
          = mk d (Some (get_stream m1))) as Hman.
  { unfold on_world. by destruct (block (world_of store2)) as [r w3]. }
  destruct (Hinner _ _ Hman) as (m3 & Hm3 & Hrun).
  assert (manager_of (snd (scope_on (on_world block) (store_of self1 w1)))
          = mk d (Some (get_stream m1))) as Hman'.
  { by rewrite Hrun. }
  destruct (Houter _ _ Hman') as (m4 & Hm4 & Hrun').
  rewrite Hrun'. simpl. by rewrite Hm4, Hm1.
Qed.

End ScopeMore.

(** X15. With no passages [get_summary_answer] does not return early: the
    passages render to the empty text, and when the template formats the
    model is still called once, with the prompt made of that empty text. *)
Theorem summary_answer_of_no_passages {M : Type} `{LanguageModel M}
    (SUMMARY_ANSWER_PROMPT_GPT4 : template) question (w : world M) prompt :
  format SUMMARY_ANSWER_PROMPT_GPT4 (summary_kwargs question []) = Ok prompt ->
  stringify_passages [] = Ok []
  /\ calls (snd (get_summary_answer SUMMARY_ANSWER_PROMPT_GPT4 question [] w))
       = calls w ++ [mkCall false prompt 1024
                       (fst (generate prompt 1024 (llm w)))].
Proof.
  intros Hf. split; [done|].
  unfold get_summary_answer, bind, lift, call_generate.
  change (stringify_passages []) with (Ok (A:=str) []). cbv beta iota.
  unfold summary_kwargs in Hf. rewrite Hf.
  destruct (generate prompt 1024 (llm w)) as [[response|e] m']; simpl; [|done].
  by destruct (split1 _ _) as [|before [|after rest]].
Qed.

(** ** The further properties on a scripted model *)

Lemma stringify_passages_keeps_texts_witness :
  (stringify_passages [cited "a" "s1"] = Ok sample_extracts
   /\ cited "a" "s1" ∈ [cited "a" "s1"])
  /\ contains (py "a") sample_extracts
  /\ exists source,
       metadata (cited "a" "s1") !! py "source" = Some source
       /\ contains (value_str source) sample_extracts.
Proof.
  assert (stringify_passages [cited "a" "s1"] = Ok sample_extracts) as Hs
    by (vm_compute; reflexivity).
  assert (cited "a" "s1" ∈ [cited "a" "s1"]) as Hin
    by apply list_elem_of_here.
  split; [exact (conj Hs Hin)|].
  exact (stringify_passages_keeps_texts [cited "a" "s1"] sample_extracts
           (cited "a" "s1") Hs Hin).
Defined.

Lemma summary_answer_provider_failure_witness :
  let w := Scripted.start false [Scripted.fails "rate limit"] true in
  let m' := Scripted.mk false [] in
  (stringify_passages [cited "a" "s1"] = Ok sample_extracts
   /\ format sample_summary_prompt (summary_kwargs (py "q") sample_extracts)
        = Ok sample_prompt
   /\ generate sample_prompt 1024 (llm w)
        = (Err (ProviderError (py "rate limit")), m'))
  /\ get_summary_answer sample_summary_prompt (py "q") [cited "a" "s1"] w
       = (Err (ProviderError (py "rate limit")),
          mkWorld m' (settings_stream w)
            (calls w ++ [mkCall false sample_prompt 1024
                           (Err (ProviderError (py "rate limit")))])).
Proof.
  intros w m'.
  assert (stringify_passages [cited "a" "s1"] = Ok sample_extracts) as Hs
    by (vm_compute; reflexivity).
  assert (format sample_summary_prompt (summary_kwargs (py "q") sample_extracts)
            = Ok sample_prompt) as Hf by (vm_compute; reflexivity).
  assert (generate sample_prompt 1024 (llm w)
            = (Err (ProviderError (py "rate limit")), m')) as Hg
    by reflexivity.
  split; [exact (conj Hs (conj Hf Hg))|].
  exact (summary_answer_provider_failure sample_summary_prompt (py "q")
           [cited "a" "s1"] w sample_extracts sample_prompt _ m' Hs Hf Hg).
Defined.

Lemma summary_answer_shape_witness :
  let w := Scripted.start false
             [Scripted.says " Paris. SOURCE: Doc1, Doc2 "] true in
  let run := get_summary_answer sample_summary_prompt (py "q")
               [cited "a" "s1"] w in
  let doc := mkDocument (py "Paris.")
               (answer_metadata (py "Doc1, Doc2")
                  (mkLLMResponse (py " Paris. SOURCE: Doc1, Doc2 ") 0 false)) in
  fst run = Ok doc
  /\ exists prompt response sources,
       calls (snd run) = calls w ++ [mkCall false prompt 1024 (Ok response)]
       /\ metadata doc !! py "source" = Some (VStr (py "SOURCE: " ++ sources))
       /\ metadata doc !! py "cached" = Some (VBool (cached response))
       /\ (forall key, is_Some (metadata doc !! key)
                       <-> key = py "source" \/ key = py "cached")
       /\ stripped sources
       /\ stripped (content doc).
Proof.
  intros w run doc.
  assert (fst run = Ok doc) as Hrun by (vm_compute; reflexivity).
  split; [exact Hrun|].
  exact (summary_answer_shape sample_summary_prompt (py "q")
           [cited "a" "s1"] w doc Hrun).
Defined.

Lemma summary_answer_content_has_no_marker_witness :
  let w := Scripted.start false
             [Scripted.says "Paris. SOURCE: Doc1 SOURCE: Doc2"] true in
  let run := get_summary_answer sample_summary_prompt (py "q")
               [cited "a" "s1"] w in
  let doc := mkDocument (py "Paris.")
               (answer_metadata (py "Doc1 SOURCE: Doc2")
                  (mkLLMResponse (py "Paris. SOURCE: Doc1 SOURCE: Doc2")
                     0 false)) in
  fst run = Ok doc /\ ~ contains (py "SOURCE:") (content doc).
Proof.
  intros w run doc.
  assert (fst run = Ok doc) as Hrun by (vm_compute; reflexivity).
  split; [exact Hrun|].
  exact (summary_answer_content_has_no_marker sample_summary_prompt (py "q")
           [cited "a" "s1"] w doc Hrun).
Defined.

Lemma summary_answer_round_trip_witness :
  let response :=
    mkLLMResponse (py " Paris. SOURCE: Doc1 SOURCE: Doc2 ") 0 false in
  let w := Scripted.start false [Ok response] true in
  let m' := Scripted.mk false [] in
  (stringify_passages [cited "a" "s1"] = Ok sample_extracts
   /\ format sample_summary_prompt (summary_kwargs (py "q") sample_extracts)
        = Ok sample_prompt
   /\ generate sample_prompt 1024 (llm w) = (Ok response, m')
   /\ message response
        = py " Paris. " ++ py "SOURCE:" ++ py " Doc1 SOURCE: Doc2 "
   /\ ~ contains (py "SOURCE:") (py " Paris. "))
  /\ exists doc,
       get_summary_answer sample_summary_prompt (py "q") [cited "a" "s1"] w
         = (Ok doc, after_generate w sample_prompt m' response)
       /\ content doc = py "Paris."
       /\ metadata doc !! py "source"
            = Some (VStr (py "SOURCE: Doc1 SOURCE: Doc2")).
Proof.
  intros response w m'.
  assert (stringify_passages [cited "a" "s1"] = Ok sample_extracts) as Hs
    by (vm_compute; reflexivity).
  assert (format sample_summary_prompt (summary_kwargs (py "q") sample_extracts)
            = Ok sample_prompt) as Hf by (vm_compute; reflexivity).
  assert (generate sample_prompt 1024 (llm w) = (Ok response, m')) as Hg
    by reflexivity.
  assert (message response
          = py " Paris. " ++ py "SOURCE:" ++ py " Doc1 SOURCE: Doc2 ") as Hm
    by reflexivity.
  assert (~ contains (py "SOURCE:") (py " Paris. ")) as Hb
    by (apply find_first_None; vm_compute; reflexivity).
  split; [exact (conj Hs (conj Hf (conj Hg (conj Hm Hb))))|].
  exact (summary_answer_round_trip sample_summary_prompt (py "q")
           [cited "a" "s1"] w sample_extracts sample_prompt response m'
           (py " Paris. ") (py " Doc1 SOURCE: Doc2 ") Hs Hf Hg Hm Hb).
Defined.

Lemma verbatim_extracts_bad_template_witness :
  let w := Scripted.start false [Scripted.says "unused"] true in
  (Field (py "passage") ∈ misnamed_extraction_prompt
   /\ py "passage" <> py "question" /\ py "passage" <> py "content"
   /\ sample_passages <> [])
  /\ exists name',
       Field name' ∈ misnamed_extraction_prompt
       /\ name' <> py "question" /\ name' <> py "content"
       /\ get_verbatim_extracts misnamed_extraction_prompt [2; 0; 1]%nat
            (py "q") sample_passages w
          = (Err (KeyError name'), w).
Proof.
  intros w.
  assert (Field (py "passage") ∈ misnamed_extraction_prompt) as Hin
    by (do 3 apply list_elem_of_further; apply list_elem_of_here).
  assert (py "passage" <> py "question") as Hq by discriminate.
  assert (py "passage" <> py "content") as Hc by discriminate.
  assert (sample_passages <> []) as Hne by discriminate.
  split; [exact (conj Hin (conj Hq (conj Hc Hne)))|].
  exact (verbatim_extracts_bad_template misnamed_extraction_prompt
           [2; 0; 1]%nat (py "q") sample_passages w (py "passage")
           Hin Hq Hc Hne).
Defined.

Lemma summary_answer_of_no_passages_witness :
  let w := Scripted.start false [Scripted.says "I do not know."] true in
  let prompt := py "Question:q" ++ newline in
  format sample_summary_prompt (summary_kwargs (py "q") []) = Ok prompt
  /\ stringify_passages [] = Ok []
  /\ calls (snd (get_summary_answer sample_summary_prompt (py "q") [] w))
       = calls w ++ [mkCall false prompt 1024
                       (fst (generate prompt 1024 (llm w)))].
Proof.
  intros w prompt.
  assert (format sample_summary_prompt (summary_kwargs (py "q") [])
            = Ok prompt) as Hf by (vm_compute; reflexivity).
  split; [exact Hf|].
  exact (summary_answer_of_no_passages sample_summary_prompt (py "q") w
           prompt Hf).
Defined.

Lemma nested_scopes_witness :
  let w := Scripted.start true [] false in
  let raises : Eff Scripted.t nat :=
    fun w' => (Err (ProviderError (py "boom")),
               mkWorld (snd (set_stream true (llm w'))) false (calls w')) in
  let outer_block : Eff Scripted.t bool :=
    fun w1 =>
      let '(_, w2) := StreamingIfAllowed.scope true raises w1 in
      read_stream w2 in
  fst (StreamingIfAllowed.scope false outer_block w) = Ok false
  /\ get_stream (llm (snd (StreamingIfAllowed.scope false outer_block w)))
       = true.
Proof.
  intros w raises outer_block.
  exact (nested_scopes scripted_contract false true raises w).
Defined.

Lemma shared_manager_loses_flag_witness :
  let w := Scripted.start true [] false in
  get_stream (llm w) = true
  /\ get_stream
       (snd (llm (snd (scope_on (scope_on (on_world (ret tt)))
                         (store_of (StreamingIfAllowed.__init__ true) w)))))
     = false.
Proof.
  intros w. split; [reflexivity|].
  exact (shared_manager_loses_flag scripted_contract true (ret tt) w).
Defined.

(** ** The streaming scope and its manager object *)

Section ScopeOnManager.
Context {M : Type} `{LanguageModel M}.
Import StreamingIfAllowed.


End ScopeOnManager.


